(** * PDFPulse: the page-conversion pipeline of the PDF-to-image converter

    A shallow embedding of [services/pdfProcessor.ts], [services/geminiService.ts],
    [types.ts] and the handlers of the [App] component, followed by the
    properties of the orchestration contract.

    The PDF library, the canvas, the remote model, the JSON parser and the
    clock are collaborators of the program: they are gathered in a [Platform]
    record whose fields are the answers they give.  Promises are modelled by
    their outcome; the React state of [App] is an explicit record that every
    handler transforms. *)

From Stdlib Require Import ZArith NArith List String Ascii Bool Lia Floats.
From stdpp Require Import base list strings pretty.
Import ListNotations.

Local Open Scope string_scope.
Local Open Scope list_scope.
Local Open Scope Z_scope.
Set Warnings "-inexact-float".

(** ** JavaScript values *)

(** The reason carried by a thrown value or a rejected promise. *)
Definition Error := string.

(** An awaited promise, by its outcome.  A [throw] inside an [async] function
    is a rejection of the promise it returns. *)
Inductive Promise (A : Type) : Type :=
| Resolved (value : A)
| Rejected (reason : Error).
Arguments Resolved {A} value.
Arguments Rejected {A} reason.

Definition await {A B : Type} (p : Promise A) (k : A -> Promise B) : Promise B :=
  match p with
  | Resolved a => k a
  | Rejected e => Rejected e
  end.

Notation "'let*' x ':=' 'await' p 'in' k" := (await p (fun x => k))
  (at level 100, x name, p at level 99, k at level 200).

Definition is_resolved {A : Type} (p : Promise A) : bool :=
  match p with Resolved _ => true | Rejected _ => false end.

(** A JavaScript number holding a page counter. *)
Definition number_of_nat (n : nat) : float :=
  PrimFloat.of_uint63 (Uint63.of_Z (Z.of_nat n)).

(** [Math.round]: the integer closest to [x], ties towards +infinity, that is
    floor (x + 1/2) computed exactly from the mantissa and the exponent of the
    double.  NaN and the infinities, which [Math.round] returns unchanged and
    which are no integers, are sent to 0. *)
Definition Math_round (x : float) : Z :=
  match Prim2SF x with
  | S754_finite s m e =>
      let n := if s then Z.neg m else Z.pos m in
      if 0 <=? e then n * 2 ^ e
      else (2 * n + 2 ^ (- e)) / 2 ^ (- e + 1)
  | _ => 0
  end.

(** [Math.round((i / total) * 100)] on doubles, line 167 of the component. *)
Definition percent (i total : nat) : Z :=
  Math_round (number_of_nat i / number_of_nat total * 100)%float.

(** [s.replace(pat, rep)] with a string pattern: the first occurrence only. *)
Fixpoint replace (pat rep s : string) : string :=
  if String.prefix pat s then rep +:+ String.substring (String.length pat) (String.length s) s
  else match s with
       | EmptyString => EmptyString
       | String c s' => String c (replace pat rep s')
       end.

(** ** Data URLs *)

Definition base64_alphabet : string :=
  "ABCDEFGHIJKLMNOPQRSTUVWXYZabcdefghijklmnopqrstuvwxyz0123456789+/".

Definition base64_char (v : N) : ascii :=
  default "="%char (String.get (N.to_nat v) base64_alphabet).

Definition base64_value (c : ascii) : option N :=
  N.of_nat <$> String.index 0 (String c EmptyString) base64_alphabet.

(** Base 64 of a byte string: three bytes become four characters, the last
    group is padded with [=]. *)
Fixpoint base64_encode (bytes : list Byte.byte) : string :=
  match bytes with
  | [] => ""
  | [a] =>
      let n := (Byte.to_N a * 65536)%N in
      String (base64_char (n / 262144)) (String (base64_char (n / 4096 mod 64)) "==")
  | [a; b] =>
      let n := (Byte.to_N a * 65536 + Byte.to_N b * 256)%N in
      String (base64_char (n / 262144)) (String (base64_char (n / 4096 mod 64))
        (String (base64_char (n / 64 mod 64)) "="))
  | a :: b :: c :: rest =>
      let n := (Byte.to_N a * 65536 + Byte.to_N b * 256 + Byte.to_N c)%N in
      String (base64_char (n / 262144)) (String (base64_char (n / 4096 mod 64))
        (String (base64_char (n / 64 mod 64)) (String (base64_char (n mod 64))
           (base64_encode rest))))
  end.

(** The first [count] bytes of a group of 24 bits. *)
Definition bytes_of_group (n : N) (count : nat) : option (list Byte.byte) :=
  mapM Byte.of_N (take count [(n / 65536)%N; (n / 256 mod 256)%N; (n mod 256)%N]).

Fixpoint base64_decode (s : string) : option (list Byte.byte) :=
  match s with
  | "" => Some []
  | String a (String b (String c (String d rest))) =>
      va ← base64_value a; vb ← base64_value b;
      if Ascii.eqb c "=" && Ascii.eqb d "=" && String.eqb rest "" then
        bytes_of_group (va * 262144 + vb * 4096) 1
      else
        vc ← base64_value c;
        if Ascii.eqb d "=" && String.eqb rest "" then
          bytes_of_group (va * 262144 + vb * 4096 + vc * 64) 2
        else
          vd ← base64_value d;
          group ← bytes_of_group (va * 262144 + vb * 4096 + vc * 64 + vd) 3;
          tail ← base64_decode rest;
          Some (group ++ tail)
  | _ => None
  end.

(** The URL [data:<type>;base64,<payload>] of a byte string. *)
Definition data_url (type : string) (bytes : list Byte.byte) : string :=
  "data:" +:+ type +:+ ";base64," +:+ base64_encode bytes.

(** The bytes a [data:] URL in base 64 stands for. *)
Definition dataUrl_bytes (url : string) : option (list Byte.byte) :=
  if String.prefix "data:" url then
    comma ← String.index 0 "," url;
    if String.eqb (String.substring (comma - 7) 7 url) ";base64"
    then base64_decode (String.substring (S comma) (String.length url) url)
    else None
  else None.

(** ** types.ts *)

Record PDFMetadata := {
  meta_name : string;
  meta_size : nat;
  totalPages : nat
}.

Inductive Format := png | jpeg.

Definition format_string (f : Format) : string :=
  match f with png => "png" | jpeg => "jpeg" end.

Record ConversionSettings := {
  format : Format;
  scale : float;
  quality : float
}.

Record Blob := {
  blob_type : string;
  blob_bytes : list Byte.byte
}.

Record ConvertedImage := {
  img_id : string;
  pageNumber : nat;
  dataUrl : string;
  blob : Blob;
  width : Z;
  height : Z
}.

Record AIInsights := {
  summary : string;
  keywords : list string;
  suggestedFileName : string
}.

(** The browser's [File]. *)
Record File := {
  file_name : string;
  file_size : nat;
  file_type : string;
  file_bytes : list Byte.byte
}.

(** ** The collaborators *)

Record PageViewport := {
  vp_width : float;
  vp_height : float
}.

(** What [page.render] paints. *)
Definition Pixels := list Byte.byte.

Record PDFPageProxy := {
  getViewport : float -> PageViewport;
  render : PageViewport -> Promise Pixels;
  getTextContent : Promise (list string)
}.

Record PDFDocumentProxy := {
  numPages : nat;
  getPage : nat -> Promise PDFPageProxy
}.

Record Canvas := {
  canvas_width : Z;
  canvas_height : Z;
  canvas_pixels : Pixels
}.

Record GenerateContentResponse := {
  response_text : option string
}.

Record Platform := {
  (** [file.arrayBuffer()] followed by [pdfjsLib.getDocument({data}).promise] *)
  getDocument : File -> Promise PDFDocumentProxy;
  (** whether [canvas.getContext('2d')] returns a context *)
  getContext2d : bool;
  (** the value [canvas.width] (or [height]) reads back after an assignment *)
  canvas_dimension : float -> Z;
  (** [canvas.toDataURL(type, quality)] *)
  toDataURL : Canvas -> string -> float -> string;
  (** [canvas.toBlob(callback, type, quality)], by the blob handed to the callback *)
  toBlob : Canvas -> string -> float -> Blob;
  (** [Date.now()] *)
  Date_now : Z;
  (** [ai.models.generateContent({model, contents, config})], by its contents *)
  generateContent : string -> Promise GenerateContentResponse;
  (** [JSON.parse], at the type the caller declares; a rejection is a throw *)
  JSON_parse : string -> Promise AIInsights
}.

(** ** services/pdfProcessor.ts *)

Definition getPDFMetadata (P : Platform) (file : File) : Promise PDFMetadata :=
  let* pdf := await getDocument P file in
  Resolved {| meta_name := file_name file;
              meta_size := file_size file;
              totalPages := numPages pdf |}.

Definition convertPageToImage (P : Platform) (file : File) (pageNumber : nat)
    (settings : ConversionSettings) : Promise ConvertedImage :=
  let* pdf := await getDocument P file in
  let* page := await getPage pdf pageNumber in
  let viewport := getViewport page (scale settings) in
  if negb (getContext2d P) then Rejected "Could not get canvas context" else
  let h := canvas_dimension P (vp_height viewport) in
  let w := canvas_dimension P (vp_width viewport) in
  let* painted := await render page viewport in
  let canvas := {| canvas_width := w; canvas_height := h; canvas_pixels := painted |} in
  let mimeType := "image/" +:+ format_string (format settings) in
  let dataUrl := toDataURL P canvas mimeType (quality settings) in
  let blob := toBlob P canvas mimeType (quality settings) in
  Resolved {| img_id := "p-" +:+ pretty pageNumber +:+ "-" +:+ pretty (Date_now P);
              pageNumber := pageNumber;
              dataUrl := dataUrl;
              blob := blob;
              width := canvas_width canvas;
              height := canvas_height canvas |}.

(** ** services/geminiService.ts *)

Definition dquote : string := String (ascii_of_nat 34) EmptyString.
Definition newline : string := String (ascii_of_nat 10) EmptyString.

(** The [contents] of the request: the template of lines 11-19 around the
    first 4000 characters of the text. *)
Definition contents (text : string) : string :=
  String.concat newline
    [ "Analyze the following text extracted from a PDF document and provide insights in JSON format.";
      "      ";
      "      Text Content:";
      "      " +:+ dquote +:+ String.substring 0 4000 text +:+ dquote;
      "      ";
      "      Requirements:";
      "      1. summary: A 1-2 sentence overview of the document content.";
      "      2. keywords: 5-8 relevant keywords.";
      "      3. suggestedFileName: A professional, snake_case filename based on the content (without extension)." ].

(** The value of the [catch] branch. *)
Definition fallbackInsights : AIInsights :=
  {| summary := "Could not analyze document content.";
     keywords := [];
     suggestedFileName := "document_export" |}.

(** A line of [console.error]: the message and the error logged with it. *)
Definition LogEntry := (string * Error)%type.

(** [analyzePDFContent], with the lines it writes to the console.
    [JSON.parse(undefined)] parses the text [undefined]. *)
Definition analyzePDFContent (P : Platform) (text : string)
    : Promise AIInsights * list LogEntry :=
  let attempt :=
    let* response := await generateContent P (contents text) in
    JSON_parse P (default "undefined" (response_text response)) in
  match attempt with
  | Resolved insights => (Resolved insights, [])
  | Rejected error => (Resolved fallbackInsights, [("AI Analysis failed:", error)])
  end.

Definition extractTextFromFirstPage (P : Platform) (file : File) : Promise string :=
  let* pdf := await getDocument P file in
  let* page := await getPage pdf 1%nat in
  let* items := await getTextContent page in
  Resolved (String.concat " " items).

(** ** App.tsx: the state of the component *)

(** The [useState] cells of [App], and the console the handlers write to. *)
Record App := {
  file : option File;
  metadata : option PDFMetadata;
  settings : ConversionSettings;
  images : list ConvertedImage;
  isProcessing : bool;
  progress : Z;
  aiInsights : option AIInsights;
  isAnalyzing : bool;
  console : list LogEntry
}.

Definition initialSettings : ConversionSettings :=
  {| format := png; scale := 2%float; quality := 0.92%float |}.

Definition initialApp : App :=
  {| file := None; metadata := None; settings := initialSettings; images := [];
     isProcessing := false; progress := 0; aiInsights := None;
     isAnalyzing := false; console := [] |}.

Definition setFile (v : option File) (st : App) : App :=
  {| file := v; metadata := metadata st; settings := settings st; images := images st;
     isProcessing := isProcessing st; progress := progress st;
     aiInsights := aiInsights st; isAnalyzing := isAnalyzing st; console := console st |}.

Definition setMetadata (v : option PDFMetadata) (st : App) : App :=
  {| file := file st; metadata := v; settings := settings st; images := images st;
     isProcessing := isProcessing st; progress := progress st;
     aiInsights := aiInsights st; isAnalyzing := isAnalyzing st; console := console st |}.

Definition setSettings (v : ConversionSettings) (st : App) : App :=
  {| file := file st; metadata := metadata st; settings := v; images := images st;
     isProcessing := isProcessing st; progress := progress st;
     aiInsights := aiInsights st; isAnalyzing := isAnalyzing st; console := console st |}.

(** [setImages] takes an updater, as in [setImages((prev) => [...prev, img])];
    [setImages([])] is the constant updater. *)
Definition setImages (f : list ConvertedImage -> list ConvertedImage) (st : App) : App :=
  {| file := file st; metadata := metadata st; settings := settings st;
     images := f (images st);
     isProcessing := isProcessing st; progress := progress st;
     aiInsights := aiInsights st; isAnalyzing := isAnalyzing st; console := console st |}.

Definition setIsProcessing (v : bool) (st : App) : App :=
  {| file := file st; metadata := metadata st; settings := settings st; images := images st;
     isProcessing := v; progress := progress st;
     aiInsights := aiInsights st; isAnalyzing := isAnalyzing st; console := console st |}.

Definition setProgress (v : Z) (st : App) : App :=
  {| file := file st; metadata := metadata st; settings := settings st; images := images st;
     isProcessing := isProcessing st; progress := v;
     aiInsights := aiInsights st; isAnalyzing := isAnalyzing st; console := console st |}.

Definition setAiInsights (v : option AIInsights) (st : App) : App :=
  {| file := file st; metadata := metadata st; settings := settings st; images := images st;
     isProcessing := isProcessing st; progress := progress st;
     aiInsights := v; isAnalyzing := isAnalyzing st; console := console st |}.

Definition setIsAnalyzing (v : bool) (st : App) : App :=
  {| file := file st; metadata := metadata st; settings := settings st; images := images st;
     isProcessing := isProcessing st; progress := progress st;
     aiInsights := aiInsights st; isAnalyzing := v; console := console st |}.

Definition console_error (message : string) (err : Error) (st : App) : App :=
  {| file := file st; metadata := metadata st; settings := settings st; images := images st;
     isProcessing := isProcessing st; progress := progress st;
     aiInsights := aiInsights st; isAnalyzing := isAnalyzing st;
     console := console st ++ [(message, err)] |}.

Definition console_errors (entries : list LogEntry) (st : App) : App :=
  fold_left (fun s entry => console_error (fst entry) (snd entry) s) entries st.

(** ** App.tsx: the handlers *)

(** [handleFileUpload], lines 132-153, run to its end.  [uploadedFile] is
    [event.target.files?.[0]]. *)
Definition handleFileUpload (P : Platform) (uploadedFile : option File) (st : App) : App :=
  match uploadedFile with
  | Some f =>
      if String.eqb (file_type f) "application/pdf" then
        let st := setFile (Some f) st in
        let st := setImages (fun _ => []) st in
        let st := setAiInsights None st in
        let st := setProgress 0 st in
        match getPDFMetadata P f with
        | Rejected err => console_error "Error reading PDF:" err st
        | Resolved meta =>
            let st := setMetadata (Some meta) st in
            let st := setIsAnalyzing true st in
            match extractTextFromFirstPage P f with
            | Rejected err => console_error "Error reading PDF:" err st
            | Resolved text =>
                let '(insights, logged) := analyzePDFContent P text in
                let st := console_errors logged st in
                match insights with
                | Rejected err => console_error "Error reading PDF:" err st
                | Resolved insights =>
                    let st := setAiInsights (Some insights) st in
                    setIsAnalyzing false st
                end
            end
        end
      else st
  | None => st
  end.

(** The closure of one call of [convertAllPages]: the [file], the page count
    and the [settings] of the render in which the button was clicked, the
    local array [results] and the loop variable [i]. *)
Record ConvertTask := {
  task_file : File;
  task_total : nat;
  task_settings : ConversionSettings;
  results : list ConvertedImage;
  task_i : nat
}.

(** Lines 156-160 and the initialisation of the loop. *)
Definition convertAllPages_enter (st : App) : option ConvertTask * App :=
  match file st, metadata st with
  | Some f, Some m =>
      let st := setIsProcessing true st in
      let st := setImages (fun _ => []) st in
      (Some {| task_file := f; task_total := totalPages m; task_settings := settings st;
               results := []; task_i := 1 |}, st)
  | _, _ => (None, st)
  end.

(** The body of the loop, lines 163-170, followed by [i++]; [outcome] is the
    awaited [convertPageToImage(file, i, settings)]. *)
Definition loop_body (outcome : Promise ConvertedImage) (t : ConvertTask) (st : App)
    : ConvertTask * App :=
  let i := task_i t in
  let total := task_total t in
  match outcome with
  | Resolved img =>
      let st := setImages (fun prev => prev ++ [img]) st in
      let st := setProgress (percent i total) st in
      ({| task_file := task_file t; task_total := total; task_settings := task_settings t;
          results := results t ++ [img]; task_i := S i |}, st)
  | Rejected err =>
      let st := console_error ("Failed to convert page " +:+ pretty i +:+ ":") err st in
      ({| task_file := task_file t; task_total := total; task_settings := task_settings t;
          results := results t; task_i := S i |}, st)
  end.

(** One trip through the loop, as observed from outside. *)
Record Attempt := {
  attempted_page : nat;
  outcome : Promise ConvertedImage;
  task_after : ConvertTask;
  app_after : App
}.

(** The platform as it answers while page [i] is converted. *)
Definition World := nat -> Platform.

(** [for (let i = 1; i <= total; i++) { ... }] from the state of the closure,
    with the attempts it makes.  The fuel bounds the number of trips. *)
Fixpoint for_loop (fuel : nat) (W : World) (t : ConvertTask) (st : App)
    : list Attempt * (ConvertTask * App) :=
  match fuel with
  | O => ([], (t, st))
  | S fuel' =>
      if (task_i t <=? task_total t)%nat then
        let o := convertPageToImage (W (task_i t)) (task_file t) (task_i t) (task_settings t) in
        let '(t', st') := loop_body o t st in
        let '(attempts, final) := for_loop fuel' W t' st' in
        ({| attempted_page := task_i t; outcome := o; task_after := t'; app_after := st' |}
           :: attempts, final)
      else ([], (t, st))
  end.

(** [convertAllPages], lines 155-173, run to its end without any other
    handler in between: the attempts, the closure at the end and the state. *)
Definition convertAllPages_run (W : World) (st : App)
    : list Attempt * option ConvertTask * App :=
  match convertAllPages_enter st with
  | (Some t, st) =>
      let '(attempts, (t, st)) := for_loop (task_total t) W t st in
      (attempts, Some t, setIsProcessing false st)
  | (None, st) => ([], None, st)
  end.

Definition convertAllPages (W : World) (st : App) : App :=
  snd (convertAllPages_run W st).

Definition attempts (W : World) (st : App) : list Attempt :=
  fst (fst (convertAllPages_run W st)).

(** The controls of the settings panel, lines 350, 356, 375 and 396. *)
Definition chooseFormat (f : Format) (st : App) : App :=
  setSettings {| format := f; scale := scale (settings st); quality := quality (settings st) |} st.

Definition changeScale (v : float) (st : App) : App :=
  setSettings {| format := format (settings st); scale := v; quality := quality (settings st) |} st.

Definition changeQuality (v : float) (st : App) : App :=
  setSettings {| format := format (settings st); scale := scale (settings st); quality := v |} st.

Definition clearAll (st : App) : App :=
  let st := setFile None st in
  let st := setMetadata None st in
  let st := setImages (fun _ => []) st in
  let st := setAiInsights None st in
  setProgress 0 st.

(** [a || b] where [a] is a string or [undefined]: the empty string and
    [undefined] are falsy. *)
Definition or_string (a : option string) (b : string) : string :=
  match a with
  | Some (String c s) => String c s
  | _ => b
  end.

(** [aiInsights?.suggestedFileName || metadata?.name.replace('.pdf', '') || 'pdf_export'] *)
Definition folderName (st : App) : string :=
  or_string (suggestedFileName <$> aiInsights st)
    (or_string ((fun m => replace ".pdf" "" (meta_name m)) <$> metadata st)
       "pdf_export").

(** The entries of a [JSZip] archive, in the order of their creation. *)
Definition JSZip := list (string * Blob).

(** [zip.file(name, data)]: a new entry, or new data for the entry of that name. *)
Fixpoint zip_file (name : string) (data : Blob) (zip : JSZip) : JSZip :=
  match zip with
  | [] => [(name, data)]
  | (n, d) :: rest =>
      if String.eqb n name then (n, data) :: rest else (n, d) :: zip_file name data rest
  end.

Definition entryName (st : App) (img : ConvertedImage) : string :=
  folderName st +:+ "_page_" +:+ pretty (pageNumber img) +:+ "." +:+ format_string (format (settings st)).

(** What the browser is asked to save. *)
Record ZipDownload := {
  zip_entries : JSZip;
  zip_download : string
}.

(** [downloadAllAsZip], lines 175-191: [None] when it returns at line 176. *)
Definition downloadAllAsZip (st : App) : option ZipDownload :=
  match images st with
  | [] => None
  | _ =>
      let zip := fold_left (fun zip img => zip_file (entryName st img) (blob img) zip)
                   (images st) [] in
      Some {| zip_entries := zip; zip_download := folderName st +:+ ".zip" |}
  end.

Record LinkDownload := {
  link_href : string;
  link_download : string
}.

Definition downloadSingle (st : App) (img : ConvertedImage) : LinkDownload :=
  {| link_href := dataUrl img; link_download := entryName st img |}.

(** ** The component between two awaits *)

(** A conversion suspended at [await convertPageToImage(...)] keeps running
    when other handlers run; [inflight] is its closure. *)
Record Machine := {
  app : App;
  inflight : option ConvertTask
}.

Inductive Event :=
| ChooseFile (P : Platform) (uploadedFile : option File)
| ClickConvert
| PageSettled (P : Platform)
| ClickClear
| ClickFormat (f : Format)
| SlideScale (v : float)
| SlideQuality (v : float).

(** After [i++]: the next await, or line 172. *)
Definition resume (t : ConvertTask) (st : App) : Machine :=
  if (task_i t <=? task_total t)%nat then {| app := st; inflight := Some t |}
  else {| app := setIsProcessing false st; inflight := None |}.

(** The file input is part of the landing view, shown while [file] is null
    (line 236); the convert button is disabled while [isProcessing] (line 403).
    [handleFileUpload] is taken in one step, its own awaits included; a
    conversion is taken page by page, so that other handlers run in between. *)
Definition step (m : Machine) (e : Event) : Machine :=
  match e with
  | ChooseFile P uploadedFile =>
      match file (app m) with
      | None => {| app := handleFileUpload P uploadedFile (app m); inflight := inflight m |}
      | Some _ => m
      end
  | ClickConvert =>
      if isProcessing (app m) then m
      else match convertAllPages_enter (app m) with
           | (Some t, st) => resume t st
           | (None, st) => {| app := st; inflight := inflight m |}
           end
  | PageSettled P =>
      match inflight m with
      | Some t =>
          let o := convertPageToImage P (task_file t) (task_i t) (task_settings t) in
          let '(t', st') := loop_body o t (app m) in
          resume t' st'
      | None => m
      end
  | ClickClear => {| app := clearAll (app m); inflight := inflight m |}
  | ClickFormat f => {| app := chooseFormat f (app m); inflight := inflight m |}
  | SlideScale v => {| app := changeScale v (app m); inflight := inflight m |}
  | SlideQuality v => {| app := changeQuality v (app m); inflight := inflight m |}
  end.

Definition run (m : Machine) (events : list Event) : Machine :=
  fold_left step events m.

(** ** Reading a run *)

(** The loop body taken [k] times from the state of the closure. *)
Fixpoint advance (W : World) (k : nat) (t : ConvertTask) (st : App) : ConvertTask * App :=
  match k with
  | O => (t, st)
  | S k' =>
      let o := convertPageToImage (W (task_i t)) (task_file t) (task_i t) (task_settings t) in
      let '(t', st') := loop_body o t st in
      advance W k' t' st'
  end.

(** The trip number [k] (from 0) of a loop entered with [t] and [st]. *)
Definition attempt_of (W : World) (t : ConvertTask) (st : App) (k : nat) : Attempt :=
  let '(tk, sk) := advance W k t st in
  let o := convertPageToImage (W (task_i tk)) (task_file tk) (task_i tk) (task_settings tk) in
  {| attempted_page := task_i tk; outcome := o;
     task_after := fst (loop_body o tk sk); app_after := snd (loop_body o tk sk) |}.

(** The images of the pages of [pages] whose conversion succeeds. *)
Definition rendered (W : World) (f : File) (s : ConversionSettings) (pages : list nat)
    : list ConvertedImage :=
  omap (fun j => match convertPageToImage (W j) f j s with
                 | Resolved img => Some img
                 | Rejected _ => None
                 end) pages.

(** The console lines of the pages of [pages] whose conversion fails. *)
Definition failures (W : World) (f : File) (s : ConversionSettings) (pages : list nat)
    : list LogEntry :=
  omap (fun j => match convertPageToImage (W j) f j s with
                 | Resolved _ => None
                 | Rejected err => Some ("Failed to convert page " +:+ pretty j +:+ ":", err)
                 end) pages.

(** Whether the conversion of page [j] succeeds. *)
Definition succeeds (W : World) (f : File) (s : ConversionSettings) (j : nat) : bool :=
  is_resolved (convertPageToImage (W j) f j s).

(** The last page of [pages] whose conversion succeeds, [j0] when none does. *)
Definition lastSuccess (W : World) (f : File) (s : ConversionSettings) (j0 : nat)
    (pages : list nat) : nat :=
  fold_left (fun j0 j => if is_resolved (convertPageToImage (W j) f j s) then j else j0)
    pages j0.

(** The progress published along [pages] from the value [p0]. *)
Definition published (W : World) (f : File) (s : ConversionSettings) (total : nat) (p0 : Z)
    (pages : list nat) : Z :=
  fold_left (fun p j => if is_resolved (convertPageToImage (W j) f j s)
                        then percent j total else p)
    pages p0.

(** The facts of double arithmetic the progress of an [n]-page run rests on:
    0 at page 0, 100 at page [n], and no decrease from a page to the next. *)
Definition percent_ok (n : nat) : bool :=
  (percent 0 n =? 0) && (percent n n =? 100)
  && forallb (fun j => percent j n <=? percent (S j) n) (seq 0 n).

(** The invariant of the accumulated images of a run over [n] pages. *)
Definition pages_within (n : nat) (imgs : list ConvertedImage) : Prop :=
  NoDup (map pageNumber imgs) /\ Forall (fun p => (1 <= p <= n)%nat) (map pageNumber imgs).

(** The invariant of a suspended conversion: its next page is a page of
    the document, and its [results] are pages before it, each once. *)
Definition suspended_ok (m : Machine) : Prop :=
  forall t, inflight m = Some t ->
    (1 <= task_i t <= task_total t)%nat /\
    NoDup (map pageNumber (results t)) /\
    Forall (fun p => (1 <= p < task_i t)%nat) (map pageNumber (results t)).

(** [Math.trunc], for the sample canvas below. *)
Definition truncate (x : float) : Z :=
  match Prim2SF x with
  | S754_finite s m e =>
      let n := if s then Z.neg m else Z.pos m in
      if 0 <=? e then n * 2 ^ e else Z.quot n (2 ^ (- e))
  | _ => 0
  end.

(** ** Sample documents and platforms *)

Definition samplePage (ink : Pixels) (ok : bool) : PDFPageProxy :=
  {| getViewport := fun s => {| vp_width := 612 * s; vp_height := 792 * s |};
     render := fun _ => if ok then Resolved ink else Rejected "render failed";
     getTextContent := Resolved ["Quarterly"; "report"] |}.

(** A document of [n] pages; the pages listed in [bad] fail to render. *)
Definition sampleDocument (ink : Pixels) (n : nat) (bad : list nat) : PDFDocumentProxy :=
  {| numPages := n;
     getPage := fun i =>
       if ((1 <=? i) && (i <=? n))%nat
       then Resolved (samplePage ink (negb (bool_decide (i ∈ bad))))
       else Rejected "Invalid page request." |}.

(** A browser whose two encoders write the same bytes, with a remote model
    that answers [answer]. *)
Definition samplePlatform (docs : File -> Promise PDFDocumentProxy)
    (answer : Promise AIInsights) : Platform :=
  {| getDocument := docs;
     getContext2d := true;
     canvas_dimension := truncate;
     toDataURL := fun c ty _ => data_url ty (canvas_pixels c);
     toBlob := fun c ty _ => {| blob_type := ty; blob_bytes := canvas_pixels c |};
     Date_now := 1700000000000;
     generateContent := fun _ => Resolved {| response_text := Some "{...}" |};
     JSON_parse := fun _ => answer |}.

(** A browser that perturbs every read-out of a canvas, so that two
    encodings of one surface differ. *)
Definition noisyPlatform (docs : File -> Promise PDFDocumentProxy) : Platform :=
  {| getDocument := docs;
     getContext2d := true;
     canvas_dimension := truncate;
     toDataURL := fun c ty _ => data_url ty (canvas_pixels c ++ [Byte.x01]);
     toBlob := fun c ty _ => {| blob_type := ty; blob_bytes := canvas_pixels c ++ [Byte.x02] |};
     Date_now := 1700000000000;
     generateContent := fun _ => Rejected "fetch failed";
     JSON_parse := fun _ => Rejected "SyntaxError" |}.

Definition pdfFile (name : string) : File :=
  {| file_name := name; file_size := 1024; file_type := "application/pdf"; file_bytes := [] |}.

Definition textFile : File :=
  {| file_name := "notes.txt"; file_size := 12; file_type := "text/plain"; file_bytes := [] |}.

Definition reportInsights : AIInsights :=
  {| summary := "A quarterly report."; keywords := ["report"]; suggestedFileName := "report" |}.

(** Every file opens as a document of [n] pages of which those in [bad] fail;
    the remote model suggests the name [report]. *)
Definition sampleWorld (n : nat) (bad : list nat) : World :=
  fun _ => samplePlatform (fun _ => Resolved (sampleDocument [Byte.x2a] n bad))
             (Resolved reportInsights).

(** The state after [report.pdf], of [n] pages, has been chosen. *)
Definition loaded (n : nat) (bad : list nat) : App :=
  handleFileUpload (sampleWorld n bad 0%nat) (Some (pdfFile "report.pdf")) initialApp.

(** Two documents: [first.pdf] has two pages, every other file one. *)
Definition twoDocuments (f : File) : Promise PDFDocumentProxy :=
  if String.eqb (file_name f) "first.pdf"
  then Resolved (sampleDocument [Byte.x0a] 2 [])
  else Resolved (sampleDocument [Byte.x0b] 1 []).

Definition browser : Platform := samplePlatform twoDocuments (Resolved reportInsights).

Definition landing : Machine := {| app := initialApp; inflight := None |}.

(** [first.pdf] is chosen and its conversion started; after its first page
    the document is cleared and [second.pdf] chosen. *)
Definition firstPageDone : list Event :=
  [ ChooseFile browser (Some (pdfFile "first.pdf")); ClickConvert; PageSettled browser ].






(** [isProcessing] is true exactly while a conversion is suspended. *)
Definition busy_ok (m : Machine) : Prop :=
  isProcessing (app m) = match inflight m with Some _ => true | None => false end.

(** Whether the character [c] occurs in [s]. *)
Fixpoint has_char (c : ascii) (s : string) : bool :=
  match s with
  | EmptyString => false
  | String d s' => Ascii.eqb c d || has_char c s'
  end.


(** * Properties *)

(** ** The definitions on small inputs *)

Example Math_round_ties :
  map Math_round [2.5; -2.5; 0.4375; 0.5; -0.25; 100]%float = [3; -2; 0; 1; 0; 100].
Proof. vm_compute. reflexivity. Qed.

Example percent_of_three_pages : map (fun i => percent i 3) [1; 2; 3]%nat = [33; 67; 100].
Proof. vm_compute. reflexivity. Qed.

(** The quotient 29 / 200 is a double just below 0.145: the product is just
    below 14.5 and rounds to 14. *)
Example percent_rounds_the_double : percent 29 200 = 14.
Proof. vm_compute. reflexivity. Qed.

Example dataUrl_bytes_examples :
  data_url "image/png" [Byte.x4d; Byte.x61; Byte.x6e; Byte.x2a] = "data:image/png;base64,TWFuKg==" /\
  dataUrl_bytes "data:image/png;base64,TWFuKg==" = Some [Byte.x4d; Byte.x61; Byte.x6e; Byte.x2a] /\
  dataUrl_bytes "data:image/jpeg;base64,TWE=" = Some [Byte.x4d; Byte.x61] /\
  dataUrl_bytes "data:image/png,TWFu" = None /\
  dataUrl_bytes "data:image/png;base64,TQ=" = None.
Proof. vm_compute. repeat split; reflexivity. Qed.

Example replace_first_occurrence :
  replace ".pdf" "" "scan.pdf.old.pdf" = "scan.old.pdf" /\ replace ".pdf" "" "notes" = "notes".
Proof. split; reflexivity. Qed.

Example folderName_fallbacks :
  folderName (loaded 1 []) = "report" /\
  folderName (setAiInsights None (loaded 1 [])) = "report" /\
  folderName (setMetadata (Some {| meta_name := ".pdf"; meta_size := 0; totalPages := 1 |})
                (setAiInsights None (loaded 1 []))) = "pdf_export" /\
  folderName initialApp = "pdf_export".
Proof. repeat split; reflexivity. Qed.

Example convertPageToImage_letter_page :
  convertPageToImage (sampleWorld 2 [] 1%nat) (pdfFile "report.pdf") 1 initialSettings =
  Resolved {| img_id := "p-1-1700000000000"; pageNumber := 1;
              dataUrl := "data:image/png;base64,Kg==";
              blob := {| blob_type := "image/png"; blob_bytes := [Byte.x2a] |};
              width := 1224; height := 1584 |}.
Proof. vm_compute. reflexivity. Qed.

Example convertAllPages_three_pages :
  map (fun a => (attempted_page a, is_resolved (outcome a), progress (app_after a)))
    (attempts (sampleWorld 3 [2%nat]) (loaded 3 [])) =
    [(1%nat, true, 33); (2%nat, false, 33); (3%nat, true, 100)] /\
  map pageNumber (images (convertAllPages (sampleWorld 3 [2%nat]) (loaded 3 []))) = [1; 3]%nat /\
  console (convertAllPages (sampleWorld 3 [2%nat]) (loaded 3 [])) =
    [("Failed to convert page 2:", "render failed")].
Proof. vm_compute. repeat split; reflexivity. Qed.

(** ** The rasterizer *)

Lemma convertPageToImage_inv P f n s img :
  convertPageToImage P f n s = Resolved img ->
  exists pdf page painted,
    getDocument P f = Resolved pdf /\ getPage pdf n = Resolved page /\
    getContext2d P = true /\
    render page (getViewport page (scale s)) = Resolved painted /\
    let canvas := {| canvas_width := canvas_dimension P (vp_width (getViewport page (scale s)));
                     canvas_height := canvas_dimension P (vp_height (getViewport page (scale s)));
                     canvas_pixels := painted |} in
    img = {| img_id := "p-" +:+ pretty n +:+ "-" +:+ pretty (Date_now P);
             pageNumber := n;
             dataUrl := toDataURL P canvas ("image/" +:+ format_string (format s)) (quality s);
             blob := toBlob P canvas ("image/" +:+ format_string (format s)) (quality s);
             width := canvas_width canvas;
             height := canvas_height canvas |}.
Proof.
  unfold convertPageToImage, await. intros H.
  destruct (getDocument P f) as [pdf|] eqn:Hdoc; [|discriminate].
  destruct (getPage pdf n) as [page|] eqn:Hpage; [|discriminate].
  destruct (getContext2d P) eqn:Hctx; simpl in H; [|discriminate].
  destruct (render page _) as [painted|] eqn:Hrender; [|discriminate].
  injection H as <-. exists pdf, page, painted. repeat split; assumption.
Qed.

Lemma convertPageToImage_pageNumber P f n s img :
  convertPageToImage P f n s = Resolved img -> pageNumber img = n.
Proof.
  intros H. apply convertPageToImage_inv in H as (pdf & page & painted & _ & _ & _ & _ & ->).
  reflexivity.
Qed.

(** ** The loop *)

Section Loop.
Variable W : World.

Lemma rendered_cons f s j pages :
  rendered W f s (j :: pages) =
  match convertPageToImage (W j) f j s with
  | Resolved img => img :: rendered W f s pages
  | Rejected _ => rendered W f s pages
  end.
Proof. unfold rendered. cbn. destruct (convertPageToImage (W j) f j s); reflexivity. Qed.

Lemma failures_cons f s j pages :
  failures W f s (j :: pages) =
  match convertPageToImage (W j) f j s with
  | Resolved _ => failures W f s pages
  | Rejected err => ("Failed to convert page " +:+ pretty j +:+ ":", err) :: failures W f s pages
  end.
Proof. unfold failures. cbn. destruct (convertPageToImage (W j) f j s); reflexivity. Qed.

Lemma published_cons f s total p0 j pages :
  published W f s total p0 (j :: pages) =
  published W f s total
    (if is_resolved (convertPageToImage (W j) f j s) then percent j total else p0) pages.
Proof. reflexivity. Qed.

Lemma loop_body_task o t st :
  task_file (fst (loop_body o t st)) = task_file t /\
  task_total (fst (loop_body o t st)) = task_total t /\
  task_settings (fst (loop_body o t st)) = task_settings t /\
  task_i (fst (loop_body o t st)) = S (task_i t).
Proof. destruct o; simpl; auto. Qed.

Lemma attempt_of_S t st k :
  attempt_of W t st (S k) =
  attempt_of W
    (fst (loop_body (convertPageToImage (W (task_i t)) (task_file t) (task_i t) (task_settings t)) t st))
    (snd (loop_body (convertPageToImage (W (task_i t)) (task_file t) (task_i t) (task_settings t)) t st))
    k.
Proof.
  unfold attempt_of. simpl.
  destruct (loop_body _ t st) as [t' st']. reflexivity.
Qed.

(** With enough fuel to reach [total], the loop is the body taken once per
    remaining page. *)
Lemma for_loop_advance n t st :
  (task_i t + n <= S (task_total t))%nat ->
  for_loop n W t st = (map (attempt_of W t st) (seq 0 n), advance W n t st).
Proof.
  revert t st. induction n as [|n IH]; intros t st Hn; [reflexivity|].
  cbn [for_loop advance].
  replace (task_i t <=? task_total t)%nat with true
    by (symmetry; apply Nat.leb_le; lia).
  pose proof (loop_body_task
    (convertPageToImage (W (task_i t)) (task_file t) (task_i t) (task_settings t)) t st)
    as (_ & Htot & _ & Hi).
  pose proof (attempt_of_S t st) as Hshift.
  destruct (loop_body _ t st) as [t' st'] eqn:Hbody. simpl in Htot, Hi, Hshift.
  rewrite IH by lia.
  cbn [seq map]. rewrite <- seq_shift, map_map.
  f_equal. f_equal.
  - unfold attempt_of. cbn [advance]. rewrite Hbody. reflexivity.
  - apply map_ext. intros k. symmetry. apply Hshift.
Qed.

(** The loop ends by its test: fuel beyond the number of remaining pages
    changes nothing. *)
Lemma for_loop_fuel n extra t st :
  (task_i t + n = S (task_total t))%nat ->
  for_loop (n + extra) W t st = for_loop n W t st.
Proof.
  revert t st. induction n as [|n IH]; intros t st Hn.
  - destruct extra as [|extra]; [reflexivity|]. cbn [Nat.add for_loop].
    replace (task_i t <=? task_total t)%nat with false
      by (symmetry; apply Nat.leb_gt; lia).
    reflexivity.
  - cbn [Nat.add for_loop].
    replace (task_i t <=? task_total t)%nat with true
      by (symmetry; apply Nat.leb_le; lia).
    pose proof (loop_body_task
      (convertPageToImage (W (task_i t)) (task_file t) (task_i t) (task_settings t)) t st)
      as (_ & Htot & _ & Hi).
    destruct (loop_body _ t st) as [t' st']. cbn [fst] in Htot, Hi.
    rewrite IH by lia. reflexivity.
Qed.

(** The closure and the state after [k] trips. *)
Lemma advance_closed k t st :
  let f := task_file t in
  let s := task_settings t in
  let pages := seq (task_i t) k in
  advance W k t st =
  ({| task_file := f; task_total := task_total t; task_settings := s;
      results := results t ++ rendered W f s pages;
      task_i := (task_i t + k)%nat |},
   {| file := file st; metadata := metadata st; settings := settings st;
      images := images st ++ rendered W f s pages;
      isProcessing := isProcessing st;
      progress := published W f s (task_total t) (progress st) pages;
      aiInsights := aiInsights st; isAnalyzing := isAnalyzing st;
      console := console st ++ failures W f s pages |}).
Proof.
  revert t st. induction k as [|k IH]; intros t st; cbn zeta.
  - simpl. rewrite !app_nil_r, Nat.add_0_r. destruct t, st; reflexivity.
  - cbn [advance seq]. rewrite rendered_cons, failures_cons, published_cons.
    destruct (convertPageToImage (W (task_i t)) (task_file t) (task_i t) (task_settings t))
      as [img|err]; cbn [loop_body is_resolved];
      rewrite IH; cbn; rewrite <- ?app_assoc, Nat.add_succ_r; reflexivity.
Qed.

Lemma advance_S k t st :
  advance W (S k) t st =
  loop_body
    (convertPageToImage (W (task_i (fst (advance W k t st))))
       (task_file (fst (advance W k t st))) (task_i (fst (advance W k t st)))
       (task_settings (fst (advance W k t st))))
    (fst (advance W k t st)) (snd (advance W k t st)).
Proof.
  revert t st. induction k as [|k IH]; intros t st.
  - cbn [advance fst snd]. destruct (loop_body _ t st); reflexivity.
  - change (advance W (S (S k)) t st) with
      (let '(t', st') := loop_body (convertPageToImage (W (task_i t)) (task_file t)
                                      (task_i t) (task_settings t)) t st in
       advance W (S k) t' st').
    change (advance W (S k) t st) with
      (let '(t', st') := loop_body (convertPageToImage (W (task_i t)) (task_file t)
                                      (task_i t) (task_settings t)) t st in
       advance W k t' st').
    destruct (loop_body _ t st) as [t' st']. apply IH.
Qed.

(** Trip [k] converts page [i + k] and leaves the state of [k + 1] trips. *)
Lemma attempt_of_closed t st k :
  attempt_of W t st k =
  {| attempted_page := (task_i t + k)%nat;
     outcome := convertPageToImage (W (task_i t + k)%nat) (task_file t) (task_i t + k)%nat
                  (task_settings t);
     task_after := fst (advance W (S k) t st);
     app_after := snd (advance W (S k) t st) |}.
Proof.
  rewrite advance_S. unfold attempt_of.
  rewrite (advance_closed k t st). cbn. reflexivity.
Qed.

End Loop.

(** ** Progress arithmetic *)

Lemma percent_ok_zero n : percent_ok n = true -> percent 0 n = 0.
Proof.
  unfold percent_ok. rewrite !andb_true_iff. intros [[H _] _]. apply Z.eqb_eq, H.
Qed.

Lemma percent_ok_full n : percent_ok n = true -> percent n n = 100.
Proof.
  unfold percent_ok. rewrite !andb_true_iff. intros [[_ H] _]. apply Z.eqb_eq, H.
Qed.

Lemma percent_ok_mono n i j :
  percent_ok n = true -> (i <= j <= n)%nat -> percent i n <= percent j n.
Proof.
  unfold percent_ok. rewrite !andb_true_iff, forallb_forall. intros [_ Hstep] [Hij Hj].
  induction Hij as [|j Hij IH]; [lia|].
  etransitivity; [apply IH; lia|].
  apply Z.leb_le, Hstep, in_seq. lia.
Qed.


(** The double arithmetic behaves on every document of at most 400 pages. *)
Lemma percent_ok_400 n : (1 <= n <= 400)%nat -> percent_ok n = true.
Proof.
  intros Hn.
  assert (Hall : forallb percent_ok (seq 1 400) = true) by (vm_cast_no_check (eq_refl true)).
  rewrite forallb_forall in Hall. apply Hall, in_seq. lia.
Qed.

(** ** The accumulated images *)

Section Accumulated.
Variable W : World.
Variable f : File.
Variable s : ConversionSettings.

Lemma rendered_pageNumbers pages :
  map pageNumber (rendered W f s pages) = List.filter (succeeds W f s) pages.
Proof.
  induction pages as [|j pages IH]; [reflexivity|].
  rewrite rendered_cons. cbn [List.filter]. unfold succeeds at 1.
  destruct (convertPageToImage (W j) f j s) as [img|err] eqn:Ho; cbn [is_resolved].
  - cbn [map]. rewrite IH, (convertPageToImage_pageNumber _ _ _ _ _ Ho). reflexivity.
  - exact IH.
Qed.


Lemma rendered_within i k n :
  (1 <= i)%nat -> (i + k <= S n)%nat -> pages_within n (rendered W f s (seq i k)).
Proof.
  intros Hi Hk. unfold pages_within. rewrite rendered_pageNumbers. split.
  - apply NoDup_ListNoDup, List.NoDup_filter, List.seq_NoDup.
  - apply List.Forall_forall. intros p Hp.
    apply List.filter_In in Hp as [Hp _]. apply in_seq in Hp. lia.
Qed.

Lemma published_lastSuccess total j0 pages :
  published W f s total (percent j0 total) pages =
  percent (lastSuccess W f s j0 pages) total.
Proof.
  revert j0. induction pages as [|j pages IH]; intros j0; [reflexivity|].
  rewrite published_cons. unfold lastSuccess. cbn [fold_left].
  destruct (is_resolved (convertPageToImage (W j) f j s)); apply IH.
Qed.

Lemma lastSuccess_snoc j0 pages j :
  lastSuccess W f s j0 (pages ++ [j]) =
  if succeeds W f s j then j else lastSuccess W f s j0 pages.
Proof. unfold lastSuccess. rewrite fold_left_app. reflexivity. Qed.


Lemma lastSuccess_le k : (lastSuccess W f s 0 (seq 1 k) <= k)%nat.
Proof.
  induction k as [|k IH]; [reflexivity|].
  rewrite seq_S, lastSuccess_snoc. cbn [Nat.add]. destruct (succeeds W f s (S k)); lia.
Qed.


End Accumulated.

(** ** A whole run *)

Section Run.
Variable W : World.
Variable st : App.
Variable f : File.
Variable m : PDFMetadata.
Hypothesis Hfile : file st = Some f.
Hypothesis Hmeta : metadata st = Some m.

Let N := totalPages m.
Let s := settings st.
Let t0 : ConvertTask :=
  {| task_file := f; task_total := N; task_settings := s; results := []; task_i := 1 |}.
Let st0 : App := setImages (fun _ => []) (setIsProcessing true st).

Lemma convertAllPages_enter_loaded : convertAllPages_enter st = (Some t0, st0).
Proof. unfold convertAllPages_enter. rewrite Hfile, Hmeta. reflexivity. Qed.

Lemma convertAllPages_run_loaded :
  convertAllPages_run W st =
  (map (attempt_of W t0 st0) (seq 0 N), Some (fst (advance W N t0 st0)),
   setIsProcessing false (snd (advance W N t0 st0))).
Proof.
  unfold convertAllPages_run. rewrite convertAllPages_enter_loaded.
  change (task_total t0) with N.
  rewrite for_loop_advance by (simpl; lia).
  destruct (advance W N t0 st0); reflexivity.
Qed.

(** The state in which a run ends. *)
Lemma convertAllPages_closed :
  convertAllPages W st =
  {| file := file st; metadata := metadata st; settings := settings st;
     images := rendered W f s (seq 1 N);
     isProcessing := false;
     progress := published W f s N (progress st) (seq 1 N);
     aiInsights := aiInsights st; isAnalyzing := isAnalyzing st;
     console := console st ++ failures W f s (seq 1 N) |}.
Proof.
  unfold convertAllPages. rewrite convertAllPages_run_loaded. cbn [snd].
  rewrite advance_closed. reflexivity.
Qed.

(** The attempts of a run: trip [k] converts page [k + 1]. *)
Lemma attempts_closed :
  attempts W st =
  map (fun k =>
         {| attempted_page := S k;
            outcome := convertPageToImage (W (S k)) f (S k) s;
            task_after := fst (advance W (S k) t0 st0);
            app_after := snd (advance W (S k) t0 st0) |}) (seq 0 N).
Proof.
  unfold attempts. rewrite convertAllPages_run_loaded. cbn [fst].
  apply map_ext. intros k. rewrite attempt_of_closed. reflexivity.
Qed.

Lemma attempts_lookup k a :
  attempts W st !! k = Some a ->
  (k < N)%nat /\
  attempted_page a = S k /\
  outcome a = convertPageToImage (W (S k)) f (S k) s /\
  results (task_after a) = rendered W f s (seq 1 (S k)) /\
  images (app_after a) = rendered W f s (seq 1 (S k)) /\
  progress (app_after a) = published W f s N (progress st) (seq 1 (S k)).
Proof.
  rewrite attempts_closed. intros H.
  apply list_lookup_fmap_Some in H as (k' & -> & Hk).
  apply lookup_seq in Hk as [-> Hk]. cbn [Nat.add] in *.
  split; [exact Hk|]. cbn [attempted_page outcome task_after app_after].
  rewrite advance_closed. cbn. auto.
Qed.

End Run.

(** ** Progress (C1) *)




(** ** Partial failure (C2) *)






(** ** The page numbers of a run (C8) *)

Lemma resume_inflight t st t' :
  inflight (resume t st) = Some t' -> t' = t /\ (task_i t <= task_total t)%nat.
Proof.
  unfold resume. destruct (task_i t <=? task_total t)%nat eqn:Hle; cbn; [|discriminate].
  intros [= <-]. split; [reflexivity|]. apply Nat.leb_le, Hle.
Qed.

(** Whatever the user does between two pages, a suspended conversion keeps
    its invariant. *)
Lemma step_suspended_ok m e : suspended_ok m -> suspended_ok (step m e).
Proof.
  intros Hm. destruct e as [P uploaded| |P| | | |]; cbn [step];
    try (intros t Ht; apply Hm, Ht).
  - destruct (file (app m)); [exact Hm|]. intros t Ht. apply Hm, Ht.
  - destruct (isProcessing (app m)); [exact Hm|].
    unfold convertAllPages_enter.
    destruct (file (app m)) as [f|]; [destruct (metadata (app m)) as [meta|]|];
      try (intros t Ht; apply Hm, Ht).
    intros t Ht. apply resume_inflight in Ht as [-> Hle]. cbn in *.
    repeat split; [lia|exact Hle|constructor|constructor].
  - destruct (inflight m) as [t|] eqn:Hrun; [|exact Hm].
    destruct (Hm t Hrun) as ([Hone Hle] & Hnd & Hall).
    pose proof (convertPageToImage_pageNumber P (task_file t) (task_i t) (task_settings t))
      as Hpage.
    destruct (convertPageToImage P (task_file t) (task_i t) (task_settings t))
      as [img|err]; cbn [loop_body];
      intros t' Ht'; apply resume_inflight in Ht' as [-> Hle']; cbn in *.
    + rewrite map_app. cbn [map]. rewrite (Hpage img eq_refl).
      repeat split; [lia|exact Hle'| |].
      * apply NoDup_app. split; [exact Hnd|]. split; [|apply NoDup_singleton].
        intros p Hp Hp'. apply list_elem_of_singleton in Hp'. subst p.
        rewrite Forall_forall in Hall. specialize (Hall _ Hp). lia.
      * apply Forall_app. split.
        -- eapply Forall_impl; [exact Hall|]. cbn. intros p Hp. lia.
        -- repeat constructor; lia.
    + repeat split; [lia|exact Hle'|exact Hnd|].
      eapply Forall_impl; [exact Hall|]. cbn. intros p Hp. lia.
Qed.

Lemma run_suspended_ok events m : suspended_ok m -> suspended_ok (run m events).
Proof.
  revert m. induction events as [|e events IH]; intros m Hm; [exact Hm|].
  apply (IH (step m e)), step_suspended_ok, Hm.
Qed.

(** C8: in a run over the [N] pages of a loaded document, the accumulated
    images are empty when the loop is entered, and after every attempt and
    at the end of the run their page numbers lie in 1..[N] and are pairwise
    different; so do those of the run's own [results] array, which keeps
    this invariant whatever handlers run between two of its pages. *)
Theorem accumulated_pages_within (W : World) (st : App) (f : File) (m : PDFMetadata) :
  file st = Some f -> metadata st = Some m ->
  pages_within (totalPages m) (images (snd (convertAllPages_enter st))) /\
  (forall a, a ∈ attempts W st ->
     pages_within (totalPages m) (images (app_after a)) /\
     pages_within (totalPages m) (results (task_after a))) /\
  pages_within (totalPages m) (images (convertAllPages W st)) /\
  (forall events t, inflight (run landing events) = Some t ->
     pages_within (task_total t) (results t)).
Proof.
  intros Hfile Hmeta. split; [|split; [|split]].
  - rewrite (convertAllPages_enter_loaded st f m Hfile Hmeta). cbn.
    split; constructor.
  - intros a Ha. apply list_elem_of_lookup in Ha as [k Hk].
    destruct (attempts_lookup W st f m Hfile Hmeta k a Hk) as (Hlt & _ & _ & -> & -> & _).
    split; apply rendered_within; lia.
  - rewrite (convertAllPages_closed W st f m Hfile Hmeta). cbn [images].
    apply rendered_within; lia.
  - intros events t Ht.
    assert (Hland : suspended_ok landing) by (intros t' Ht'; discriminate).
    destruct (run_suspended_ok events landing Hland t Ht) as (Hi & Hnd & Hall).
    split; [exact Hnd|]. eapply Forall_impl; [exact Hall|]. cbn. intros p Hp. lia.
Qed.

Lemma accumulated_pages_within_witness :
  pages_within 3 (images (snd (convertAllPages_enter (loaded 3 [])))) /\
  (forall a, a ∈ attempts (sampleWorld 3 [2%nat]) (loaded 3 []) ->
     pages_within 3 (images (app_after a)) /\ pages_within 3 (results (task_after a))) /\
  pages_within 3 (images (convertAllPages (sampleWorld 3 [2%nat]) (loaded 3 []))) /\
  (forall events t, inflight (run landing events) = Some t ->
     pages_within (task_total t) (results t)).
Proof.
  exact (accumulated_pages_within (sampleWorld 3 [2%nat]) (loaded 3 []) (pdfFile "report.pdf")
           {| meta_name := "report.pdf"; meta_size := 1024; totalPages := 3 |}
           eq_refl eq_refl).
Defined.

(** ** The start of a run (C7) *)

Lemma convertAllPages_enter_progress st :
  progress (snd (convertAllPages_enter st)) = progress st.
Proof.
  unfold convertAllPages_enter. destruct (file st), (metadata st); reflexivity.
Qed.

(** C7 on the code: a second run of a converted two-page document enters its
    loop with the images emptied and the progress of the first run, 100, as
    lines 157-160 call [setImages([])] and never [setProgress(0)]. *)
Theorem second_run_keeps_stale_progress :
  progress (convertAllPages (sampleWorld 2 []) (loaded 2 [])) = 100 /\
  images (snd (convertAllPages_enter (convertAllPages (sampleWorld 2 []) (loaded 2 [])))) = [] /\
  progress (snd (convertAllPages_enter (convertAllPages (sampleWorld 2 []) (loaded 2 [])))) = 100 /\
  map (fun a => progress (app_after a))
    (attempts (sampleWorld 2 []) (convertAllPages (sampleWorld 2 []) (loaded 2 []))) = [50; 100].
Proof. vm_compute. repeat split; reflexivity. Qed.

(** ** Insight generation (C3) *)



(** ** Files that are no PDF (C10) *)

(** C10: a file whose type is not [application/pdf] leaves every cell of the
    state, and the console, as they are; the handler has no other effect,
    on a landing page as in general. *)
Theorem handleFileUpload_ignores_non_pdf (P : Platform) (f : File) (st : App) :
  file_type f <> "application/pdf" ->
  handleFileUpload P (Some f) st = st /\
  (forall m, step m (ChooseFile P (Some f)) = m).
Proof.
  intros Htype.
  assert (Hst : forall st', handleFileUpload P (Some f) st' = st').
  { intros st'. unfold handleFileUpload.
    destruct (String.eqb (file_type f) "application/pdf") eqn:Heq; [|reflexivity].
    apply String.eqb_eq in Heq. contradiction. }
  split; [apply Hst|].
  intros [a t]. cbn [step app inflight]. destruct (file a); [reflexivity|].
  rewrite Hst. reflexivity.
Qed.

Lemma handleFileUpload_ignores_non_pdf_witness :
  handleFileUpload (sampleWorld 1 [] 0%nat) (Some textFile) (loaded 1 []) = loaded 1 [] /\
  (forall m, step m (ChooseFile (sampleWorld 1 [] 0%nat) (Some textFile)) = m).
Proof.
  apply (handleFileUpload_ignores_non_pdf (sampleWorld 1 [] 0%nat) textFile (loaded 1 [])).
  discriminate.
Defined.

(** ** Settings and produced images (C9) *)



(** ** The two encodings of a page (C5) *)

(** C5, as the code has it: the preview and the blob of an image are two
    encodings of one canvas, asked for with the same type and the same
    quality, first by [toDataURL] and then by [toBlob]; the preview decodes
    to the bytes of the blob exactly when these two calls of the browser's
    encoders agree. *)
Theorem encodings_share_canvas (P : Platform) (f : File) (n : nat)
    (s : ConversionSettings) (img : ConvertedImage) :
  convertPageToImage P f n s = Resolved img ->
  exists canvas,
    dataUrl img = toDataURL P canvas ("image/" +:+ format_string (format s)) (quality s) /\
    blob img = toBlob P canvas ("image/" +:+ format_string (format s)) (quality s) /\
    width img = canvas_width canvas /\ height img = canvas_height canvas /\
    (dataUrl_bytes (dataUrl img) = Some (blob_bytes (blob img)) <->
     dataUrl_bytes (toDataURL P canvas ("image/" +:+ format_string (format s)) (quality s)) =
       Some (blob_bytes (toBlob P canvas ("image/" +:+ format_string (format s)) (quality s)))).
Proof.
  intros H.
  apply convertPageToImage_inv in H as (pdf & page & painted & _ & _ & _ & _ & Himg).
  cbn zeta in Himg. subst img. eexists. cbn [dataUrl blob width height].
  repeat split; intros Hagree; exact Hagree.
Qed.

(** The sample browser encodes a canvas to the same bytes both ways. *)
Lemma encodings_share_canvas_witness :
  exists img,
    convertPageToImage (sampleWorld 1 [] 1%nat) (pdfFile "report.pdf") 1 initialSettings =
      Resolved img /\
    dataUrl_bytes (dataUrl img) = Some (blob_bytes (blob img)).
Proof.
  eexists. split; [reflexivity|].
  destruct (encodings_share_canvas (sampleWorld 1 [] 1%nat) (pdfFile "report.pdf") 1
              initialSettings _ eq_refl)
    as (canvas & Hurl & Hblob & _ & _ & Hsame).
  apply Hsame. rewrite <- Hurl, <- Hblob. reflexivity.
Defined.

(** C5 fails as stated: in a browser that perturbs each read-out of a canvas
    the preview and the blob of one image carry different bytes. *)
Lemma independent_encodings_disagree :
  exists img,
    convertPageToImage
      (noisyPlatform (fun _ => Resolved (sampleDocument [Byte.x2a] 1 [])))
      (pdfFile "report.pdf") 1 initialSettings = Resolved img /\
    dataUrl img = "data:image/png;base64,KgE=" /\
    dataUrl_bytes (dataUrl img) = Some [Byte.x2a; Byte.x01] /\
    blob_bytes (blob img) = [Byte.x2a; Byte.x02].
Proof. eexists. split; [vm_compute; reflexivity|]. repeat split. Qed.

(** ** Packaging (C6) *)

Lemma string_length_app (s1 s2 : string) :
  String.length (s1 +:+ s2) = (String.length s1 + String.length s2)%nat.
Proof. induction s1 as [|c s1 IH]; simpl; [reflexivity|]. f_equal. exact IH. Qed.

Lemma string_app_inj_r (s1 s2 t : string) : s1 +:+ t = s2 +:+ t -> s1 = s2.
Proof.
  revert s2. induction s1 as [|c s1 IH]; intros [|d s2] H.
  - reflexivity.
  - apply (f_equal String.length) in H. rewrite !string_length_app in H. cbn in H. lia.
  - apply (f_equal String.length) in H. rewrite !string_length_app in H. cbn in H. lia.
  - cbn in H. injection H as -> H. f_equal. apply IH, H.
Qed.

(** The name of an entry determines the page. *)
Lemma entryName_inj (st : App) (img1 img2 : ConvertedImage) :
  entryName st img1 = entryName st img2 -> pageNumber img1 = pageNumber img2.
Proof.
  unfold entryName. intros H.
  apply (inj (String.app _)) in H. apply (inj (String.app _)) in H.
  apply string_app_inj_r in H. apply (inj pretty) in H. exact H.
Qed.

Lemma entryNames_NoDup (st : App) (imgs : list ConvertedImage) :
  List.NoDup (map pageNumber imgs) -> NoDup (map (entryName st) imgs).
Proof.
  intros Hnd. apply NoDup_ListNoDup.
  induction imgs as [|img imgs IH]; cbn [map] in *; [constructor|].
  inversion Hnd as [|p ps Hnotin Hrest]; subst. constructor; [|apply IH, Hrest].
  intros Hin. apply Hnotin.
  apply in_map_iff in Hin as (img' & Heq & Hin).
  apply entryName_inj in Heq. rewrite <- Heq. apply in_map, Hin.
Qed.

Lemma zip_file_fresh (name : string) (data : Blob) (zip : JSZip) :
  name ∉ map fst zip -> zip_file name data zip = zip ++ [(name, data)].
Proof.
  induction zip as [|[n d] zip IH]; intros Hfresh; [reflexivity|].
  cbn [zip_file]. cbn [map fst] in Hfresh.
  apply not_elem_of_cons in Hfresh as [Hne Hfresh].
  destruct (String.eqb n name) eqn:Heq.
  - apply String.eqb_eq in Heq. congruence.
  - cbn [app]. rewrite IH by exact Hfresh. reflexivity.
Qed.

Lemma zip_of_images (st : App) (imgs : list ConvertedImage) (zip : JSZip) :
  NoDup (map fst zip ++ map (entryName st) imgs) ->
  fold_left (fun zip img => zip_file (entryName st img) (blob img) zip) imgs zip =
  zip ++ map (fun img => (entryName st img, blob img)) imgs.
Proof.
  revert zip. induction imgs as [|img imgs IH]; intros zip Hnd.
  - cbn. rewrite app_nil_r. reflexivity.
  - cbn [fold_left map]. cbn [map] in Hnd.
    rewrite zip_file_fresh.
    + rewrite IH.
      * rewrite <- app_assoc. reflexivity.
      * rewrite map_app. cbn [map fst]. rewrite <- app_assoc. exact Hnd.
    + apply NoDup_app in Hnd as (_ & Hdisj & _). intros Hin.
      apply (Hdisj _ Hin). left.
Qed.

(** C6, as the code has it: with the base name [report] and the lossy
    format, whose name and extension is [jpeg], the images of the pages
    1..[N] are packaged as the [N] entries [report_page_1.jpeg], ...,
    [report_page_N.jpeg], each holding the blob of its page, without two
    entries of one name, in the archive [report.zip]. *)
Theorem zip_entries_named_by_page (st : App) (n : nat) :
  (1 <= n)%nat ->
  folderName st = "report" ->
  format (settings st) = jpeg ->
  map pageNumber (images st) = seq 1 n ->
  exists d,
    downloadAllAsZip st = Some d /\
    map fst (zip_entries d) =
      map (fun i => "report_page_" +:+ pretty i +:+ ".jpeg") (seq 1 n) /\
    map snd (zip_entries d) = map blob (images st) /\
    length (zip_entries d) = n /\
    NoDup (map fst (zip_entries d)) /\
    zip_download d = "report.zip".
Proof.
  intros Hn Hbase Hfmt Hpages.
  assert (Hnames : map (entryName st) (images st) =
                   map (fun i => "report_page_" +:+ pretty i +:+ ".jpeg") (seq 1 n)).
  { rewrite <- Hpages, map_map. apply map_ext. intros img.
    unfold entryName. rewrite Hbase, Hfmt. reflexivity. }
  assert (Hnd : NoDup (map (entryName st) (images st))).
  { apply entryNames_NoDup. rewrite Hpages. apply List.seq_NoDup. }
  assert (Hzip : fold_left (fun zip img => zip_file (entryName st img) (blob img) zip)
                   (images st) [] =
                 map (fun img => (entryName st img, blob img)) (images st)).
  { rewrite zip_of_images; [reflexivity|exact Hnd]. }
  unfold downloadAllAsZip.
  destruct (images st) as [|img imgs] eqn:Himgs.
  - destruct n; [lia|discriminate].
  - rewrite Hzip. eexists. split; [reflexivity|]. cbn [zip_entries zip_download].
    rewrite !map_map. cbn [fst snd].
    repeat split.
    + exact Hnames.
    + rewrite length_map, <- (length_map pageNumber), Hpages. apply length_seq.
    + exact Hnd.
    + rewrite Hbase. reflexivity.
Qed.

(** The JPG button is clicked, then two pages are converted and packaged. *)
Lemma zip_entries_named_by_page_witness :
  exists d,
    downloadAllAsZip (convertAllPages (sampleWorld 2 []) (chooseFormat jpeg (loaded 2 []))) = Some d /\
    map fst (zip_entries d) =
      map (fun i => "report_page_" +:+ pretty i +:+ ".jpeg") (seq 1 2) /\
    map snd (zip_entries d) =
      map blob (images (convertAllPages (sampleWorld 2 []) (chooseFormat jpeg (loaded 2 [])))) /\
    length (zip_entries d) = 2%nat /\
    NoDup (map fst (zip_entries d)) /\
    zip_download d = "report.zip".
Proof.
  exact (zip_entries_named_by_page
           (convertAllPages (sampleWorld 2 []) (chooseFormat jpeg (loaded 2 []))) 2
           (le_S 1 1 (le_n 1)) eq_refl eq_refl eq_refl).
Defined.

(** C6 fails as stated: under the lossy format the entries of a two-page
    export named [report] end in [.jpeg], not in [.jpg]. *)
Lemma zip_entries_end_in_jpeg :
  folderName (convertAllPages (sampleWorld 2 []) (chooseFormat jpeg (loaded 2 []))) = "report" /\
  format (settings (convertAllPages (sampleWorld 2 []) (chooseFormat jpeg (loaded 2 [])))) = jpeg /\
  (map fst ∘ zip_entries) <$>
    downloadAllAsZip (convertAllPages (sampleWorld 2 []) (chooseFormat jpeg (loaded 2 []))) =
    Some ["report_page_1.jpeg"; "report_page_2.jpeg"] /\
  ["report_page_1.jpeg"; "report_page_2.jpeg"] <> ["report_page_1.jpg"; "report_page_2.jpg"].
Proof. repeat split; try (vm_compute; reflexivity). discriminate. Qed.

(** ** Handlers between the pages of a run (C4) *)

(** Uninterrupted, the machine runs [convertAllPages]. *)
Lemma run_pages_settled (W : World) (k : nat) (t : ConvertTask) (st : App) :
  (task_i t + S k <= S (task_total t))%nat ->
  run {| app := st; inflight := Some t |}
    (map (fun j => PageSettled (W j)) (seq (task_i t) (S k))) =
  resume (fst (advance W (S k) t st)) (snd (advance W (S k) t st)).
Proof.
  revert t st. induction k as [|k IH]; intros t st Hk.
  - cbn [seq map run fold_left step inflight app advance].
    destruct (loop_body _ t st) as [t' st']. reflexivity.
  - change (seq (task_i t) (S (S k))) with (task_i t :: seq (S (task_i t)) (S k)).
    change (advance W (S (S k)) t st) with
      (let '(t', st') := loop_body (convertPageToImage (W (task_i t)) (task_file t)
                                      (task_i t) (task_settings t)) t st in
       advance W (S k) t' st').
    cbn [map run fold_left step inflight app].
    pose proof (loop_body_task
      (convertPageToImage (W (task_i t)) (task_file t) (task_i t) (task_settings t)) t st)
      as (_ & Htot & _ & Hi).
    destruct (loop_body _ t st) as [t' st']. cbn [fst] in Htot, Hi.
    unfold resume at 1.
    replace (task_i t' <=? task_total t')%nat with true
      by (symmetry; apply Nat.leb_le; lia).
    rewrite <- Hi. apply IH. lia.
Qed.

Lemma run_convertAllPages (W : World) (st : App) (f : File) (m : PDFMetadata) :
  file st = Some f -> metadata st = Some m -> isProcessing st = false ->
  run {| app := st; inflight := None |}
    (ClickConvert :: map (fun j => PageSettled (W j)) (seq 1 (totalPages m))) =
  {| app := convertAllPages W st; inflight := None |}.
Proof.
  intros Hfile Hmeta Hidle.
  unfold convertAllPages. rewrite (convertAllPages_run_loaded W st f m Hfile Hmeta).
  cbn [run fold_left step app inflight snd]. rewrite Hidle.
  rewrite (convertAllPages_enter_loaded st f m Hfile Hmeta).
  destruct (totalPages m) as [|n] eqn:Hn.
  - reflexivity.
  - unfold resume at 1. cbn [task_i task_total Nat.leb].
    change (fold_left step ?l ?x) with (run x l).
    rewrite (run_pages_settled W n) by (cbn; lia).
    unfold resume. rewrite advance_closed. cbn [fst snd task_i task_total].
    replace (1 + S n <=? S n)%nat with false by (symmetry; apply Nat.leb_gt; lia).
    reflexivity.
Qed.





(** * Further properties of the code *)

(** ** The rasterizer, step by step *)

(** X1: [convertPageToImage] resolves exactly when the document opens, the
    page exists, the canvas gives a 2d context and the page renders; it
    rejects with the reason of the first of these steps that fails, which is
    [Could not get canvas context] for a missing context, whatever the
    rendering would have done. *)
Theorem convertPageToImage_resolves_iff (P : Platform) (f : File) (n : nat)
    (s : ConversionSettings) :
  (is_resolved (convertPageToImage P f n s) = true <->
   exists pdf page painted,
     getDocument P f = Resolved pdf /\ getPage pdf n = Resolved page /\
     getContext2d P = true /\
     render page (getViewport page (scale s)) = Resolved painted) /\
  (forall e, getDocument P f = Rejected e -> convertPageToImage P f n s = Rejected e) /\
  (forall pdf e, getDocument P f = Resolved pdf -> getPage pdf n = Rejected e ->
     convertPageToImage P f n s = Rejected e) /\
  (forall pdf page, getDocument P f = Resolved pdf -> getPage pdf n = Resolved page ->
     getContext2d P = false ->
     convertPageToImage P f n s = Rejected "Could not get canvas context") /\
  (forall pdf page e, getDocument P f = Resolved pdf -> getPage pdf n = Resolved page ->
     getContext2d P = true ->
     render page (getViewport page (scale s)) = Rejected e ->
     convertPageToImage P f n s = Rejected e).
Proof.
  split; [split|repeat split].
  - destruct (convertPageToImage P f n s) as [img|] eqn:Ho; [|discriminate]. intros _.
    apply convertPageToImage_inv in Ho as (pdf & page & painted & H1 & H2 & H3 & H4 & _).
    exists pdf, page, painted. auto.
  - intros (pdf & page & painted & H1 & H2 & H3 & H4).
    unfold convertPageToImage, await. rewrite H1, H2, H3. cbn. rewrite H4. reflexivity.
  - intros e H1. unfold convertPageToImage, await. rewrite H1. reflexivity.
  - intros pdf e H1 H2. unfold convertPageToImage, await. rewrite H1, H2. reflexivity.
  - intros pdf page H1 H2 H3. unfold convertPageToImage, await. rewrite H1, H2, H3.
    reflexivity.
  - intros pdf page e H1 H2 H3 H4. unfold convertPageToImage, await.
    rewrite H1, H2, H3. cbn. rewrite H4. reflexivity.
Qed.

(** Page 3 of a two-page document, and a page that fails to render. *)
Lemma convertPageToImage_resolves_iff_witness :
  convertPageToImage (sampleWorld 2 [] 3%nat) (pdfFile "report.pdf") 3 initialSettings =
    Rejected "Invalid page request." /\
  convertPageToImage (sampleWorld 2 [2%nat] 2%nat) (pdfFile "report.pdf") 2 initialSettings =
    Rejected "render failed".
Proof.
  split.
  - exact (proj1 (proj2 (proj2 (convertPageToImage_resolves_iff (sampleWorld 2 [] 3%nat)
             (pdfFile "report.pdf") 3 initialSettings)))
             (sampleDocument [Byte.x2a] 2 []) "Invalid page request." eq_refl eq_refl).
  - exact (proj2 (proj2 (proj2 (proj2 (convertPageToImage_resolves_iff
             (sampleWorld 2 [2%nat] 2%nat) (pdfFile "report.pdf") 2 initialSettings))))
             (sampleDocument [Byte.x2a] 2 [2%nat]) (samplePage [Byte.x2a] false)
             "render failed" eq_refl eq_refl eq_refl eq_refl).
Defined.

(** ** Runs: every page is accounted for *)

Lemma rendered_failures_length W f s (pages : list nat) :
  (length (rendered W f s pages) + length (failures W f s pages) = length pages)%nat.
Proof.
  induction pages as [|j pages IH]; [reflexivity|].
  rewrite rendered_cons, failures_cons.
  destruct (convertPageToImage (W j) f j s); cbn [length]; lia.
Qed.

Lemma failures_messages W f s (pages : list nat) :
  map fst (failures W f s pages) =
  map (fun j => "Failed to convert page " +:+ pretty j +:+ ":")
    (List.filter (fun j => negb (succeeds W f s j)) pages).
Proof.
  induction pages as [|j pages IH]; [reflexivity|].
  rewrite failures_cons. cbn [List.filter]. unfold succeeds at 1.
  destruct (convertPageToImage (W j) f j s); cbn [is_resolved negb map fst];
    rewrite IH; reflexivity.
Qed.

(** X2: a run over the [N] pages of a loaded document only appends to the
    console, one line [Failed to convert page j:] per failed page [j] in page
    order, and the images it ends with and the lines it wrote are [N]
    together: no page is lost and none is counted twice. *)
Theorem every_page_is_accounted_for (W : World) (st : App) (f : File) (m : PDFMetadata) :
  file st = Some f -> metadata st = Some m ->
  exists logged,
    console (convertAllPages W st) = console st ++ logged /\
    (length (images (convertAllPages W st)) + length logged = totalPages m)%nat /\
    map fst logged =
      map (fun j => "Failed to convert page " +:+ pretty j +:+ ":")
        (List.filter (fun j => negb (succeeds W f (settings st) j)) (seq 1 (totalPages m))) /\
    map pageNumber (images (convertAllPages W st)) =
      List.filter (succeeds W f (settings st)) (seq 1 (totalPages m)).
Proof.
  intros Hfile Hmeta. exists (failures W f (settings st) (seq 1 (totalPages m))).
  rewrite (convertAllPages_closed W st f m Hfile Hmeta). cbn [console images].
  repeat split.
  - rewrite rendered_failures_length. apply length_seq.
  - apply failures_messages.
  - apply rendered_pageNumbers.
Qed.

Lemma every_page_is_accounted_for_witness :
  exists logged,
    console (convertAllPages (sampleWorld 3 [2%nat]) (loaded 3 [])) =
      console (loaded 3 []) ++ logged /\
    (length (images (convertAllPages (sampleWorld 3 [2%nat]) (loaded 3 []))) + length logged
     = 3)%nat /\
    map fst logged =
      map (fun j => "Failed to convert page " +:+ pretty j +:+ ":")
        (List.filter (fun j => negb (succeeds (sampleWorld 3 [2%nat]) (pdfFile "report.pdf")
                                        (settings (loaded 3 [])) j)) (seq 1 3)) /\
    map pageNumber (images (convertAllPages (sampleWorld 3 [2%nat]) (loaded 3 []))) =
      List.filter (succeeds (sampleWorld 3 [2%nat]) (pdfFile "report.pdf")
                     (settings (loaded 3 []))) (seq 1 3).
Proof.
  exact (every_page_is_accounted_for (sampleWorld 3 [2%nat]) (loaded 3 [])
           (pdfFile "report.pdf")
           {| meta_name := "report.pdf"; meta_size := 1024; totalPages := 3 |}
           eq_refl eq_refl).
Defined.

Lemma rendered_none W f s (pages : list nat) :
  (forall j, In j pages -> succeeds W f s j = false) -> rendered W f s pages = [].
Proof.
  induction pages as [|j pages IH]; intros Hall; [reflexivity|].
  rewrite rendered_cons.
  pose proof (Hall j (or_introl eq_refl)) as Hj. unfold succeeds in Hj.
  destruct (convertPageToImage (W j) f j s); [discriminate|].
  apply IH. intros j' Hj'. apply Hall. right. exact Hj'.
Qed.

Lemma published_none W f s total p0 (pages : list nat) :
  (forall j, In j pages -> succeeds W f s j = false) ->
  published W f s total p0 pages = p0.
Proof.
  revert p0. induction pages as [|j pages IH]; intros p0 Hall; [reflexivity|].
  rewrite published_cons.
  pose proof (Hall j (or_introl eq_refl)) as Hj. unfold succeeds in Hj. rewrite Hj.
  apply IH. intros j' Hj'. apply Hall. right. exact Hj'.
Qed.

(** X3: when every page of the document fails, the run still ends: it
    leaves no image, the progress it found, [isProcessing] false and one
    console line per page, and there is nothing to download afterwards. *)
Theorem convertAllPages_all_pages_fail (W : World) (st : App) (f : File) (m : PDFMetadata) :
  file st = Some f -> metadata st = Some m ->
  (forall j, (1 <= j <= totalPages m)%nat ->
     is_resolved (convertPageToImage (W j) f j (settings st)) = false) ->
  images (convertAllPages W st) = [] /\
  progress (convertAllPages W st) = progress st /\
  isProcessing (convertAllPages W st) = false /\
  length (console (convertAllPages W st)) = (length (console st) + totalPages m)%nat /\
  downloadAllAsZip (convertAllPages W st) = None.
Proof.
  intros Hfile Hmeta Hfail.
  assert (Hall : forall j, In j (seq 1 (totalPages m)) ->
                   succeeds W f (settings st) j = false).
  { intros j Hj. apply in_seq in Hj. apply Hfail. lia. }
  assert (Himgs : images (convertAllPages W st) = []).
  { rewrite (convertAllPages_closed W st f m Hfile Hmeta). cbn [images].
    apply rendered_none, Hall. }
  repeat split.
  - exact Himgs.
  - rewrite (convertAllPages_closed W st f m Hfile Hmeta). cbn [progress].
    apply published_none, Hall.
  - rewrite (convertAllPages_closed W st f m Hfile Hmeta). reflexivity.
  - rewrite (convertAllPages_closed W st f m Hfile Hmeta). cbn [console].
    rewrite length_app. f_equal.
    pose proof (rendered_failures_length W f (settings st) (seq 1 (totalPages m))) as Hlen.
    rewrite (rendered_none _ _ _ _ Hall), length_seq in Hlen. exact Hlen.
  - unfold downloadAllAsZip. rewrite Himgs. reflexivity.
Qed.

Lemma convertAllPages_all_pages_fail_witness :
  images (convertAllPages (sampleWorld 2 [1; 2]%nat) (loaded 2 [])) = [] /\
  progress (convertAllPages (sampleWorld 2 [1; 2]%nat) (loaded 2 [])) = progress (loaded 2 []) /\
  isProcessing (convertAllPages (sampleWorld 2 [1; 2]%nat) (loaded 2 [])) = false /\
  length (console (convertAllPages (sampleWorld 2 [1; 2]%nat) (loaded 2 []))) =
    (length (console (loaded 2 [])) + 2)%nat /\
  downloadAllAsZip (convertAllPages (sampleWorld 2 [1; 2]%nat) (loaded 2 [])) = None.
Proof.
  apply (convertAllPages_all_pages_fail (sampleWorld 2 [1; 2]%nat) (loaded 2 [])
           (pdfFile "report.pdf")
           {| meta_name := "report.pdf"; meta_size := 1024; totalPages := 2 |}
           eq_refl eq_refl).
  intros j Hj. cbn in Hj.
  assert (j = 1 \/ j = 2)%nat as [->| ->] by lia; vm_compute; reflexivity.
Defined.

(** ** Running the conversion again *)

Lemma published_cases W f s total (pages : list nat) :
  (forall p0, published W f s total p0 pages = p0) \/
  (exists v, forall p0, published W f s total p0 pages = v).
Proof.
  induction pages as [|j pages IH]; [left; reflexivity|].
  destruct IH as [Hid|[v Hv]].
  - destruct (is_resolved (convertPageToImage (W j) f j s)) eqn:Hj.
    + right. exists (percent j total). intros p0.
      rewrite published_cons, Hj. apply Hid.
    + left. intros p0. rewrite published_cons, Hj. apply Hid.
  - right. exists v. intros p0. rewrite published_cons. apply Hv.
Qed.

(** X4: converting a loaded document a second time, with the platform
    answering as before, replaces the images instead of adding to them: the
    second run ends in the state of the first, progress included, but for the
    console, where the failures of the second run follow those of the first. *)
Theorem convertAllPages_again (W : World) (st : App) (f : File) (m : PDFMetadata) :
  file st = Some f -> metadata st = Some m ->
  convertAllPages W (convertAllPages W st) =
  console_errors (failures W f (settings st) (seq 1 (totalPages m))) (convertAllPages W st).
Proof.
  intros Hfile Hmeta.
  assert (Hlog : forall entries a,
            console_errors entries a =
            {| file := file a; metadata := metadata a; settings := settings a;
               images := images a; isProcessing := isProcessing a; progress := progress a;
               aiInsights := aiInsights a; isAnalyzing := isAnalyzing a;
               console := console a ++ entries |}).
  { induction entries as [|e entries IH]; intros a.
    - cbn. rewrite app_nil_r. destruct a; reflexivity.
    - unfold console_errors in *. cbn [fold_left]. rewrite IH. cbn.
      rewrite <- app_assoc. destruct e. reflexivity. }
  rewrite Hlog.
  pose proof (convertAllPages_closed W st f m Hfile Hmeta) as Hfirst.
  rewrite (convertAllPages_closed W (convertAllPages W st) f m)
    by (rewrite Hfirst; assumption).
  rewrite Hfirst at 1 2 3 4 5 6 7 8. cbn [file metadata settings images isProcessing
    progress aiInsights isAnalyzing console].
  rewrite Hfirst. cbn [file metadata settings images isProcessing
    progress aiInsights isAnalyzing console].
  f_equal.
  destruct (published_cases W f (settings st) (totalPages m) (seq 1 (totalPages m)))
    as [Hid|[v Hv]].
  - rewrite !Hid. reflexivity.
  - rewrite !Hv. reflexivity.
Qed.

Lemma convertAllPages_again_witness :
  convertAllPages (sampleWorld 3 [2%nat]) (convertAllPages (sampleWorld 3 [2%nat]) (loaded 3 [])) =
  console_errors
    (failures (sampleWorld 3 [2%nat]) (pdfFile "report.pdf") (settings (loaded 3 [])) (seq 1 3))
    (convertAllPages (sampleWorld 3 [2%nat]) (loaded 3 [])).
Proof.
  exact (convertAllPages_again (sampleWorld 3 [2%nat]) (loaded 3 []) (pdfFile "report.pdf")
           {| meta_name := "report.pdf"; meta_size := 1024; totalPages := 3 |}
           eq_refl eq_refl).
Defined.

(** ** The range of the progress *)

(** X5: in a run over a loaded document that starts at progress 0, the
    progress lies between 0 and 100 after every attempt and at the end,
    given the facts of double arithmetic [percent_ok] checks (they hold for
    every document of at most 400 pages). *)
Theorem progress_between_0_and_100 (W : World) (st : App) (f : File) (m : PDFMetadata) :
  file st = Some f -> metadata st = Some m -> progress st = 0 ->
  percent_ok (totalPages m) = true ->
  (forall a, a ∈ attempts W st -> 0 <= progress (app_after a) <= 100) /\
  0 <= progress (convertAllPages W st) <= 100.
Proof.
  intros Hfile Hmeta Hzero Hok.
  assert (Hrange : forall k, (k <= totalPages m)%nat ->
            0 <= published W f (settings st) (totalPages m) (progress st) (seq 1 k) <= 100).
  { intros k Hk.
    replace (progress st) with (percent 0 (totalPages m))
      by (rewrite Hzero; apply percent_ok_zero, Hok).
    rewrite published_lastSuccess.
    pose proof (lastSuccess_le W f (settings st) k) as Hle.
    pose proof (percent_ok_mono (totalPages m) 0
                  (lastSuccess W f (settings st) 0 (seq 1 k)) Hok ltac:(lia)) as Hlow.
    pose proof (percent_ok_mono (totalPages m)
                  (lastSuccess W f (settings st) 0 (seq 1 k)) (totalPages m) Hok ltac:(lia))
      as Hhigh.
    rewrite (percent_ok_zero _ Hok) in Hlow. rewrite (percent_ok_full _ Hok) in Hhigh.
    lia. }
  split.
  - intros a Ha. apply list_elem_of_lookup in Ha as [k Hk].
    destruct (attempts_lookup W st f m Hfile Hmeta k a Hk) as (Hlt & _ & _ & _ & _ & ->).
    apply Hrange. lia.
  - rewrite (convertAllPages_closed W st f m Hfile Hmeta). cbn [progress].
    apply Hrange. lia.
Qed.

Lemma progress_between_0_and_100_witness :
  (forall a, a ∈ attempts (sampleWorld 3 [2%nat]) (loaded 3 []) ->
     0 <= progress (app_after a) <= 100) /\
  0 <= progress (convertAllPages (sampleWorld 3 [2%nat]) (loaded 3 [])) <= 100.
Proof.
  exact (progress_between_0_and_100 (sampleWorld 3 [2%nat]) (loaded 3 [])
           (pdfFile "report.pdf")
           {| meta_name := "report.pdf"; meta_size := 1024; totalPages := 3 |}
           eq_refl eq_refl eq_refl eq_refl).
Defined.

(** ** Archives *)





Section Packing.
Variable st : App.








End Packing.

Lemma downloadAllAsZip_distinct_pages (st : App) :
  images st <> [] ->
  List.NoDup (map pageNumber (images st)) ->
  downloadAllAsZip st =
  Some {| zip_entries := map (fun img => (entryName st img, blob img)) (images st);
          zip_download := folderName st +:+ ".zip" |}.
Proof.
  intros Hne Hnd. unfold downloadAllAsZip.
  destruct (images st) as [|img imgs] eqn:Himgs; [congruence|].
  rewrite zip_of_images; [reflexivity|].
  change (NoDup (map (entryName st) (img :: imgs))).
  apply entryNames_NoDup, Hnd.
Qed.







(** X9: the single download of an accumulated image offers its preview
    under the very name its entry has in the archive, and that entry holds
    the blob of the same image (page numbers being pairwise different). *)
Theorem downloadSingle_matches_archive (st : App) (img : ConvertedImage) (d : ZipDownload) :
  downloadAllAsZip st = Some d ->
  In img (images st) ->
  List.NoDup (map pageNumber (images st)) ->
  link_href (downloadSingle st img) = dataUrl img /\
  link_download (downloadSingle st img) =
    folderName st +:+ "_page_" +:+ pretty (pageNumber img) +:+ "." +:+
      format_string (format (settings st)) /\
  In (link_download (downloadSingle st img), blob img) (zip_entries d).
Proof.
  intros Hd Hin Hnd. split; [reflexivity|]. split; [reflexivity|].
  rewrite downloadAllAsZip_distinct_pages in Hd;
    [|intros Hnil; rewrite Hnil in Hin; destruct Hin|exact Hnd].
  injection Hd as <-. cbn [zip_entries downloadSingle link_download].
  apply (in_map (fun img => (entryName st img, blob img))), Hin.
Qed.

Lemma downloadSingle_matches_archive_witness :
  exists d,
    downloadAllAsZip (convertAllPages (sampleWorld 2 []) (loaded 2 [])) = Some d /\
    forall img, In img (images (convertAllPages (sampleWorld 2 []) (loaded 2 []))) ->
      In (link_download (downloadSingle (convertAllPages (sampleWorld 2 []) (loaded 2 [])) img),
          blob img) (zip_entries d).
Proof.
  destruct (downloadAllAsZip (convertAllPages (sampleWorld 2 []) (loaded 2 [])))
    as [d|] eqn:Hd; [|vm_compute in Hd; discriminate].
  exists d. split; [reflexivity|]. intros img Hin.
  apply (downloadSingle_matches_archive _ img d Hd Hin).
  vm_compute. repeat constructor; intros H; simpl in H; intuition discriminate.
Defined.

(** ** The base name of the downloads *)

(** X10: the base name of the downloads is never empty.  A non-empty name
    suggested by the model is the base name, whatever the file is called;
    without insights and without metadata the base name is [pdf_export]. *)
Theorem folderName_never_empty (st : App) :
  (1 <= String.length (folderName st))%nat /\
  (forall a c name, aiInsights st = Some a -> suggestedFileName a = String c name ->
     folderName st = String c name) /\
  (aiInsights st = None -> metadata st = None -> folderName st = "pdf_export").
Proof.
  unfold folderName. split; [|split].
  - destruct (aiInsights st) as [a|]; cbn [fmap option_fmap option_map or_string].
    + destruct (suggestedFileName a) as [|c name]; [|cbn; lia].
      destruct (metadata st) as [m|]; cbn [fmap option_fmap option_map or_string];
        [destruct (replace ".pdf" "" (meta_name m))|]; cbn; lia.
    + destruct (metadata st) as [m|]; cbn [fmap option_fmap option_map or_string];
        [destruct (replace ".pdf" "" (meta_name m))|]; cbn; lia.
  - intros a c name -> Hname. cbn [fmap option_fmap option_map or_string].
    rewrite Hname. reflexivity.
  - intros -> ->. reflexivity.
Qed.

Lemma folderName_never_empty_witness :
  folderName (loaded 1 []) = "report" /\ folderName initialApp = "pdf_export".
Proof.
  split.
  - exact (proj1 (proj2 (folderName_never_empty (loaded 1 []))) reportInsights
             "r"%char "eport" eq_refl eq_refl).
  - exact (proj2 (proj2 (folderName_never_empty initialApp)) eq_refl eq_refl).
Defined.

Lemma substring_all (s : string) (n : nat) :
  (String.length s <= n)%nat -> String.substring 0 n s = s.
Proof.
  revert n. induction s as [|c s IH]; intros [|n] Hn; cbn in *; try reflexivity; try lia.
  rewrite IH by lia. reflexivity.
Qed.

Lemma replace_pdf_at_head (rest : string) :
  replace ".pdf" "" (".pdf" +:+ rest) = rest.
Proof.
  destruct rest as [|c rest]; [reflexivity|].
  simpl. cbv [String.append]. f_equal. apply substring_all. lia.
Qed.

Lemma replace_pdf_after_plain (base rest : string) :
  has_char "." base = false ->
  replace ".pdf" "" (base +:+ ".pdf" +:+ rest) = base +:+ rest.
Proof.
  induction base as [|c base IH]; intros Hdot.
  - apply replace_pdf_at_head.
  - cbn [has_char] in Hdot. apply orb_false_iff in Hdot as [Hc Hdot].
    change (String c base +:+ ".pdf" +:+ rest) with (String c (base +:+ ".pdf" +:+ rest)).
    change (String c base +:+ rest) with (String c (base +:+ rest)).
    cbn [replace String.prefix].
    destruct (ascii_dec "." c) as [<-|Hne]; [rewrite Ascii.eqb_refl in Hc; discriminate|].
    rewrite IH by exact Hdot. reflexivity.
Qed.

Lemma replace_pdf_plain (s : string) :
  has_char "." s = false -> replace ".pdf" "" s = s.
Proof.
  induction s as [|c s IH]; intros Hdot; [reflexivity|].
  cbn [has_char] in Hdot. apply orb_false_iff in Hdot as [Hc Hdot].
  cbn [replace String.prefix].
  destruct (ascii_dec "." c) as [<-|Hne]; [rewrite Ascii.eqb_refl in Hc; discriminate|].
  rewrite IH by exact Hdot. reflexivity.
Qed.

(** X11: without a suggestion of the model, the base name is the name of
    the document with its first [.pdf] removed, wherever it stands: a name
    [<base>.pdf<rest>] whose base has no dot gives [<base><rest>], and a name
    without any dot is kept whole. *)
Theorem folderName_from_file_name (st : App) (m : PDFMetadata) (base rest : string) :
  aiInsights st = None -> metadata st = Some m ->
  has_char "." base = false -> base <> "" ->
  (meta_name m = base +:+ ".pdf" +:+ rest -> folderName st = base +:+ rest) /\
  (meta_name m = base -> folderName st = base).
Proof.
  intros Hai Hmeta Hdot Hne. unfold folderName. rewrite Hai, Hmeta.
  cbn [fmap option_fmap option_map or_string].
  split; intros ->.
  - rewrite replace_pdf_after_plain by exact Hdot.
    destruct base as [|c base]; [congruence|]. reflexivity.
  - rewrite replace_pdf_plain by exact Hdot.
    destruct base as [|c base]; [congruence|]. reflexivity.
Qed.

Lemma folderName_from_file_name_witness :
  folderName (setAiInsights None (loaded 1 [])) = "report" /\
  folderName (setMetadata (Some {| meta_name := "scan.pdf.old.pdf"; meta_size := 1;
                                   totalPages := 1 |})
                (setAiInsights None (loaded 1 []))) = "scan.old.pdf".
Proof.
  split.
  - refine (proj1 (folderName_from_file_name (setAiInsights None (loaded 1 []))
                     {| meta_name := "report.pdf"; meta_size := 1024; totalPages := 1 |}
                     "report" "" eq_refl eq_refl eq_refl _) eq_refl).
    discriminate.
  - refine (proj1 (folderName_from_file_name
                     (setMetadata (Some {| meta_name := "scan.pdf.old.pdf"; meta_size := 1;
                                           totalPages := 1 |})
                        (setAiInsights None (loaded 1 [])))
                     {| meta_name := "scan.pdf.old.pdf"; meta_size := 1; totalPages := 1 |}
                     "scan" ".old.pdf" eq_refl eq_refl eq_refl _) eq_refl).
    discriminate.
Defined.

(** ** Loading a document *)

Lemma handleFileUpload_unfold (P : Platform) (f : File) (st : App) :
  file_type f = "application/pdf" ->
  handleFileUpload P (Some f) st =
  let st1 := setProgress 0 (setAiInsights None (setImages (fun _ => []) (setFile (Some f) st))) in
  match getPDFMetadata P f with
  | Rejected err => console_error "Error reading PDF:" err st1
  | Resolved meta =>
      let st2 := setIsAnalyzing true (setMetadata (Some meta) st1) in
      match extractTextFromFirstPage P f with
      | Rejected err => console_error "Error reading PDF:" err st2
      | Resolved text =>
          let '(insights, logged) := analyzePDFContent P text in
          match insights with
          | Rejected err => console_error "Error reading PDF:" err (console_errors logged st2)
          | Resolved insights =>
              setIsAnalyzing false (setAiInsights (Some insights) (console_errors logged st2))
          end
      end
  end.
Proof.
  intros Htype. unfold handleFileUpload.
  rewrite (proj2 (String.eqb_eq _ _) Htype). reflexivity.
Qed.

(** X12: when the chosen PDF cannot be opened, the handler makes it the
    current file all the same, with the images emptied, the insights cleared
    and the progress at 0, leaves the metadata as they were and writes
    [Error reading PDF:] with the reason to the console; from the landing
    state, where there are no metadata, converting and downloading then do
    nothing. *)
Theorem handleFileUpload_unreadable_document (P : Platform) (W : World) (f : File)
    (st : App) (e : Error) :
  file_type f = "application/pdf" ->
  getDocument P f = Rejected e ->
  handleFileUpload P (Some f) st =
    {| file := Some f; metadata := metadata st; settings := settings st; images := [];
       isProcessing := isProcessing st; progress := 0; aiInsights := None;
       isAnalyzing := isAnalyzing st;
       console := console st ++ [("Error reading PDF:", e)] |} /\
  (metadata st = None ->
   convertAllPages W (handleFileUpload P (Some f) st) = handleFileUpload P (Some f) st /\
   attempts W (handleFileUpload P (Some f) st) = [] /\
   downloadAllAsZip (handleFileUpload P (Some f) st) = None).
Proof.
  intros Htype Hdoc.
  assert (Hst : handleFileUpload P (Some f) st =
    {| file := Some f; metadata := metadata st; settings := settings st; images := [];
       isProcessing := isProcessing st; progress := 0; aiInsights := None;
       isAnalyzing := isAnalyzing st;
       console := console st ++ [("Error reading PDF:", e)] |}).
  { rewrite (handleFileUpload_unfold P f st Htype).
    unfold getPDFMetadata, await. rewrite Hdoc. reflexivity. }
  split; [exact Hst|]. intros Hnone. rewrite Hst, Hnone. repeat split.
Qed.

Lemma handleFileUpload_unreadable_document_witness :
  handleFileUpload (noisyPlatform (fun _ => Rejected "Invalid PDF structure."))
    (Some (pdfFile "broken.pdf")) initialApp =
    {| file := Some (pdfFile "broken.pdf"); metadata := None; settings := initialSettings;
       images := []; isProcessing := false; progress := 0; aiInsights := None;
       isAnalyzing := false;
       console := [("Error reading PDF:", "Invalid PDF structure.")] |}.
Proof.
  exact (proj1 (handleFileUpload_unreadable_document
                  (noisyPlatform (fun _ => Rejected "Invalid PDF structure."))
                  (sampleWorld 1 []) (pdfFile "broken.pdf") initialApp
                  "Invalid PDF structure." eq_refl eq_refl)).
Defined.

(** X13: when the document opens but the text of its first page cannot be
    read, the handler stops there: the metadata are set, with the page count
    of the document, [isAnalyzing] is left true, there are no insights, and
    the reason is written to the console under [Error reading PDF:]; a
    conversion can still be started. *)
Theorem handleFileUpload_unreadable_text (P : Platform) (f : File) (st : App)
    (pdf : PDFDocumentProxy) (e : Error) :
  file_type f = "application/pdf" ->
  getDocument P f = Resolved pdf ->
  extractTextFromFirstPage P f = Rejected e ->
  handleFileUpload P (Some f) st =
    {| file := Some f;
       metadata := Some {| meta_name := file_name f; meta_size := file_size f;
                           totalPages := numPages pdf |};
       settings := settings st; images := [];
       isProcessing := isProcessing st; progress := 0; aiInsights := None;
       isAnalyzing := true;
       console := console st ++ [("Error reading PDF:", e)] |} /\
  (exists t st', convertAllPages_enter (handleFileUpload P (Some f) st) = (Some t, st') /\
                 task_file t = f /\ task_total t = numPages pdf) /\
  (getPage pdf 1%nat = Rejected e \/
   exists page, getPage pdf 1%nat = Resolved page /\ getTextContent page = Rejected e).
Proof.
  intros Htype Hdoc Htext.
  assert (Hst : handleFileUpload P (Some f) st =
    {| file := Some f;
       metadata := Some {| meta_name := file_name f; meta_size := file_size f;
                           totalPages := numPages pdf |};
       settings := settings st; images := [];
       isProcessing := isProcessing st; progress := 0; aiInsights := None;
       isAnalyzing := true;
       console := console st ++ [("Error reading PDF:", e)] |}).
  { rewrite (handleFileUpload_unfold P f st Htype).
    unfold getPDFMetadata, await. rewrite Hdoc, Htext. reflexivity. }
  split; [exact Hst|]. split.
  - rewrite Hst. eexists. eexists. cbn. repeat split.
  - unfold extractTextFromFirstPage, await in Htext. rewrite Hdoc in Htext.
    destruct (getPage pdf 1%nat) as [page|e1]; [|left; congruence].
    right. exists page. split; [reflexivity|].
    destruct (getTextContent page); [discriminate|congruence].
Qed.

(** A document without any page: its page 1 cannot be fetched. *)
Lemma handleFileUpload_unreadable_text_witness :
  isAnalyzing (handleFileUpload
                 (samplePlatform (fun _ => Resolved (sampleDocument [] 0 [])) (Resolved reportInsights))
                 (Some (pdfFile "empty.pdf")) initialApp) = true /\
  console (handleFileUpload
             (samplePlatform (fun _ => Resolved (sampleDocument [] 0 [])) (Resolved reportInsights))
             (Some (pdfFile "empty.pdf")) initialApp) =
    [("Error reading PDF:", "Invalid page request.")].
Proof.
  pose proof (proj1 (handleFileUpload_unreadable_text
    (samplePlatform (fun _ => Resolved (sampleDocument [] 0 [])) (Resolved reportInsights))
    (pdfFile "empty.pdf") initialApp (sampleDocument [] 0 []) "Invalid page request."
    eq_refl eq_refl eq_refl)) as ->.
  split; reflexivity.
Defined.

Lemma console_errors_closed (entries : list LogEntry) (a : App) :
  console_errors entries a =
  {| file := file a; metadata := metadata a; settings := settings a;
     images := images a; isProcessing := isProcessing a; progress := progress a;
     aiInsights := aiInsights a; isAnalyzing := isAnalyzing a;
     console := console a ++ entries |}.
Proof.
  revert a. induction entries as [|e entries IH]; intros a.
  - cbn. rewrite app_nil_r. destruct a; reflexivity.
  - unfold console_errors in *. cbn [fold_left]. rewrite IH. cbn.
    rewrite <- app_assoc. destruct e. reflexivity.
Qed.



(** ** What every sequence of user actions keeps *)

Lemma run_snoc (m : Machine) (events : list Event) (e : Event) :
  run m (events ++ [e]) = step (run m events) e.
Proof. unfold run. rewrite fold_left_app. reflexivity. Qed.

Lemma handleFileUpload_keeps (P : Platform) (uploaded : option File) (st : App) :
  isProcessing (handleFileUpload P uploaded st) = isProcessing st /\
  (images (handleFileUpload P uploaded st) = images st \/
   images (handleFileUpload P uploaded st) = []).
Proof.
  destruct uploaded as [f|]; [|split; [reflexivity|left; reflexivity]].
  destruct (String.eqb (file_type f) "application/pdf") eqn:Htype.
  - apply String.eqb_eq in Htype. rewrite (handleFileUpload_unfold P f st Htype).
    cbn zeta. destruct (getPDFMetadata P f); [|split; [reflexivity|right; reflexivity]].
    destruct (extractTextFromFirstPage P f); [|split; [reflexivity|right; reflexivity]].
    destruct (analyzePDFContent P value0) as [[insights|err] logged];
      rewrite console_errors_closed; split; try reflexivity; right; reflexivity.
  - unfold handleFileUpload. rewrite Htype. split; [reflexivity|left; reflexivity].
Qed.

Lemma step_busy_ok (m : Machine) (e : Event) : busy_ok m -> busy_ok (step m e).
Proof.
  unfold busy_ok. intros Hm.
  destruct e as [P uploaded| |P| | | |]; cbn [step]; try exact Hm.
  - destruct (file (app m)); [exact Hm|]. cbn [app inflight].
    rewrite (proj1 (handleFileUpload_keeps P uploaded (app m))). exact Hm.
  - destruct (isProcessing (app m)) eqn:Hbusy; [rewrite Hbusy; exact Hm|].
    unfold convertAllPages_enter.
    destruct (file (app m)), (metadata (app m)); cbn [app inflight];
      try (rewrite Hbusy; exact Hm).
    unfold resume. cbn [task_i task_total].
    destruct (1 <=? totalPages p)%nat; reflexivity.
  - destruct (inflight m) as [t|] eqn:Hrun; [|rewrite Hrun; exact Hm].
    destruct (convertPageToImage P (task_file t) (task_i t) (task_settings t));
      cbn [loop_body]; unfold resume; cbn [task_i task_total];
      destruct (S (task_i t) <=? task_total t)%nat; cbn; congruence.
Qed.

(** X15: after any sequence of choosing files, clicking Convert, pages
    settling, clearing and changing settings from the landing state,
    [isProcessing] is true exactly while a conversion is suspended; Convert
    is disabled during that time, so a click starts no second conversion and
    changes nothing: at most one conversion runs at a time. *)
Theorem one_conversion_at_a_time (events : list Event) :
  isProcessing (app (run landing events)) =
    match inflight (run landing events) with Some _ => true | None => false end /\
  (forall t, inflight (run landing events) = Some t ->
     step (run landing events) ClickConvert = run landing events).
Proof.
  assert (Hinv : busy_ok (run landing events)).
  { induction events as [|e events IH] using rev_ind; [reflexivity|].
    rewrite run_snoc. apply step_busy_ok, IH. }
  split; [exact Hinv|]. intros t Ht. unfold busy_ok in Hinv. rewrite Ht in Hinv.
  cbn [step]. rewrite Hinv. reflexivity.
Qed.

Lemma one_conversion_at_a_time_witness :
  inflight (run landing firstPageDone) <> None /\
  step (run landing firstPageDone) ClickConvert = run landing firstPageDone.
Proof.
  split; [vm_compute; discriminate|].
  refine (proj2 (one_conversion_at_a_time firstPageDone) _ _). vm_compute. reflexivity.
Defined.













(** ** Clearing *)

(** X17: after [clearAll] there is nothing to convert and nothing to
    download: Convert leaves the state as it is and attempts no page, the
    archive handler returns at once, and the base name is back to
    [pdf_export]; the settings, [isProcessing] and the console are kept, and
    clearing twice is clearing once. *)
Theorem clearAll_forgets_the_document (W : World) (st : App) :
  convertAllPages W (clearAll st) = clearAll st /\
  attempts W (clearAll st) = [] /\
  downloadAllAsZip (clearAll st) = None /\
  folderName (clearAll st) = "pdf_export" /\
  settings (clearAll st) = settings st /\
  isProcessing (clearAll st) = isProcessing st /\
  console (clearAll st) = console st /\
  clearAll (clearAll st) = clearAll st.
Proof. repeat split. Qed.

(** X18: [clearAll] does not stop a conversion that is suspended: the
    conversion keeps its closure, [isProcessing] stays true, and the next
    page it converts is added to the images of the cleared session, which
    has no file. *)
Theorem clearAll_does_not_cancel_run (P : Platform) (m : Machine) (t : ConvertTask)
    (img : ConvertedImage) :
  inflight m = Some t ->
  convertPageToImage P (task_file t) (task_i t) (task_settings t) = Resolved img ->
  inflight (step m ClickClear) = Some t /\
  isProcessing (app (step m ClickClear)) = isProcessing (app m) /\
  images (app (step m ClickClear)) = [] /\
  file (app (step (step m ClickClear) (PageSettled P))) = None /\
  images (app (step (step m ClickClear) (PageSettled P))) = [img].
Proof.
  intros Hrun Himg. cbn [step app inflight]. rewrite Hrun, Himg. cbn [loop_body].
  unfold resume. destruct (_ <=? _)%nat; repeat split.
Qed.

Lemma clearAll_does_not_cancel_run_witness :
  exists img,
    convertPageToImage browser (pdfFile "first.pdf") 2 initialSettings = Resolved img /\
    file (app (step (step (run landing firstPageDone) ClickClear) (PageSettled browser))) = None /\
    images (app (step (step (run landing firstPageDone) ClickClear) (PageSettled browser))) =
      [img].
Proof.
  eexists. split; [reflexivity|].
  exact (proj2 (proj2 (proj2
    (clearAll_does_not_cancel_run browser (run landing firstPageDone)
       {| task_file := pdfFile "first.pdf"; task_total := 2; task_settings := initialSettings;
          results := rendered (fun _ => browser) (pdfFile "first.pdf") initialSettings [1%nat];
          task_i := 2 |}
       _ eq_refl eq_refl)))).
Defined.

(** ** The request to the model *)

Lemma substring_length_le (n : nat) (s : string) :
  (String.length (String.substring 0 n s) <= n)%nat.
Proof.
  revert s. induction n as [|n IH]; intros [|c s]; cbn; try lia.
  specialize (IH s). lia.
Qed.

(** X19: only the first 4000 characters of the text reach the model: the
    request, and with it the result of [analyzePDFContent], is the same for
    two texts that agree on them, and the request is never longer than
    4371 characters. *)
Theorem contents_uses_first_4000_characters (P : Platform) (text : string) :
  contents text = contents (String.substring 0 4000 text) /\
  (String.length (contents text) <= 4371)%nat /\
  (forall text', String.substring 0 4000 text' = String.substring 0 4000 text ->
     contents text' = contents text /\
     analyzePDFContent P text' = analyzePDFContent P text).
Proof.
  assert (Hsame : forall text', String.substring 0 4000 text' = String.substring 0 4000 text ->
                    contents text' = contents text).
  { intros text' Heq. unfold contents. rewrite Heq. reflexivity. }
  split; [|split].
  - symmetry. apply Hsame. apply substring_all, substring_length_le.
  - unfold contents. cbn [String.concat]. rewrite !string_length_app.
    pose proof (substring_length_le 4000 text).
    unfold dquote, newline. cbn [String.length]. lia.
  - intros text' Heq. split; [apply Hsame, Heq|].
    unfold analyzePDFContent. rewrite (Hsame text' Heq). reflexivity.
Qed.

(** ** A run without failure *)



